(** * Vcf2Excel: header tokenizer and spreadsheet sink

    A shallow embedding of [src/vcf2excel/Vcf2Excel.py].  Python [str] values
    are modelled as [string], a character being a code point below 256;
    [dict]s as [gmap string _], exceptions as the [Err] branch of [result],
    and the output file as an entry of a path-indexed store of workbooks.
    Opening the input and writing the output are taken to succeed. *)

From Stdlib Require Import Ascii String List Arith Bool Lia.
From stdpp Require Import base option list strings sorting gmap.

Local Open Scope list_scope.
Local Open Scope stdpp_scope.

(** ** Exceptions *)

Inductive exn : Type :=
  | ValueError (msg : string)
  | IndexError
  | NotImplementedError.

Inductive result (A : Type) : Type :=
  | Ok (a : A)
  | Err (e : exn).
Arguments Ok {A} a.
Arguments Err {A} e.

Global Instance result_ret : MRet result := fun A a => Ok a.

Global Instance result_bind : MBind result := fun A B f m =>
  match m with
  | Ok a => f a
  | Err e => Err e
  end.

(** [l[i]] on a Python list: [IndexError] when out of range. *)
Definition item {A : Type} (l : list A) (i : nat) : result A :=
  match l !! i with
  | Some a => Ok a
  | None => Err IndexError
  end.

(** [[f x for x in l]] where [f] may raise: the first exception wins. *)
Fixpoint for_each {A B : Type} (f : A -> result B) (l : list A) : result (list B) :=
  match l with
  | [] => Ok []
  | a :: l' => b ← f a; bs ← for_each f l'; Ok (b :: bs)
  end.

(** ** Python string primitives *)

Module Py.

Definition quote : ascii := "034"%char.
Definition backslash : ascii := "092"%char.
Definition newline : ascii := "010"%char.

(** [c in chars] for a one-character [c]. *)
Fixpoint mem (c : ascii) (chars : string) : bool :=
  match chars with
  | "" => false
  | String d chars' => Ascii.eqb c d || mem c chars'
  end.

(** [s[:n]] *)
Fixpoint take (n : nat) (s : string) : string :=
  match n, s with
  | S n', String c s' => String c (take n' s')
  | _, _ => ""
  end.

(** [s[n:]] *)
Fixpoint drop (n : nat) (s : string) : string :=
  match n, s with
  | S n', String _ s' => drop n' s'
  | _, _ => s
  end.

(** [s[:-1]] *)
Fixpoint drop_last (s : string) : string :=
  match s with
  | "" => ""
  | String c s' => match s' with "" => "" | _ => String c (drop_last s') end
  end.

(** [s.startswith(p)] *)
Definition startswith (p s : string) : bool := String.prefix p s.

(** [sub in s] *)
Fixpoint contains (sub s : string) : bool :=
  startswith sub s ||
  match s with
  | "" => false
  | String _ s' => contains sub s'
  end.

(** [s.partition(sep)], with [None] when [sep] does not occur: the text
    before the leftmost occurrence of [sep] and the text after it. *)
Fixpoint cut (sep s : string) : string * option string :=
  if startswith sep s then ("", Some (drop (String.length sep) s))
  else match s with
       | "" => ("", None)
       | String c s' => let (a, r) := cut sep s' in (String c a, r)
       end.

(** [s.split(sep)] for a non-empty [sep] (the only use in the program):
    cut at the leftmost occurrence and go on with what follows it. *)
Fixpoint split_fuel (n : nat) (sep s : string) : list string :=
  match cut sep s with
  | (a, None) => [a]
  | (a, Some r) =>
      match n with
      | 0 => [a; r]
      | S n' => a :: split_fuel n' sep r
      end
  end.

Definition split (sep s : string) : list string :=
  split_fuel (String.length s) sep s.

(** [s.lstrip(chars)], [s.rstrip(chars)], [s.strip(chars)]: [chars] is a
    set of characters, every leading and trailing member is removed. *)
Fixpoint lstrip (chars s : string) : string :=
  match s with
  | "" => ""
  | String c s' => if mem c chars then lstrip chars s' else s
  end.

Fixpoint rstrip (chars s : string) : string :=
  match s with
  | "" => ""
  | String c s' =>
      match rstrip chars s' with
      | "" => if mem c chars then "" else String c ""
      | r => String c r
      end
  end.

Definition strip (chars s : string) : string := rstrip chars (lstrip chars s).

End Py.

(** ** Regular expressions ([re])

    A backtracking matcher with Python's priorities: the left alternative
    first, repetition greedy.  [bt r s k] tries the ways [r] matches a prefix
    of [s], in priority order, and is the first [k rest] that succeeds. *)

Module Re.

Inductive regex : Type :=
  | Class (p : ascii -> bool)
  | Seq (r1 r2 : regex)
  | Alt (r1 r2 : regex)
  | Star (r : regex).

(** [r+] *)
Definition Plus (r : regex) : regex := Seq r (Star r).

Fixpoint bt {A : Type} (r : regex) (s : string) (k : string -> option A) : option A :=
  match r with
  | Class p =>
      match s with
      | String c s' => if p c then k s' else None
      | "" => None
      end
  | Seq r1 r2 => bt r1 s (fun s1 => bt r2 s1 k)
  | Alt r1 r2 =>
      match bt r1 s k with
      | Some x => Some x
      | None => bt r2 s k
      end
  | Star r1 =>
      (fix loop (n : nat) (s : string) {struct n} : option A :=
         match n with
         | 0 => k s
         | S n' =>
             match bt r1 s (fun s1 => if Nat.ltb (String.length s1) (String.length s)
                                      then loop n' s1 else None) with
             | Some x => Some x
             | None => k s
             end
         end) (String.length s) s
  end.

(** [pattern.match(s)]: the text left after the match, if any. *)
Definition match_prefix (r : regex) (s : string) : option string :=
  bt r s Some.

(** [re.findall(pattern, s)] for a pattern without groups: scan from the
    left, take the match at the current position and resume after it, or
    move one character on when there is none. *)
Fixpoint findall_fuel (n : nat) (r : regex) (s : string) : list string :=
  match n with
  | 0 => []
  | S n' =>
      match match_prefix r s with
      | Some rest =>
          let k := String.length s - String.length rest in
          if Nat.ltb 0 k then Py.take k s :: findall_fuel n' r rest
          else "" :: match s with
                     | "" => []
                     | String _ s' => findall_fuel n' r s'
                     end
      | None =>
          match s with
          | "" => []
          | String _ s' => findall_fuel n' r s'
          end
      end
  end.

Definition findall (r : regex) (s : string) : list string :=
  findall_fuel (S (String.length s)) r s.

(** [\s] of a [str] pattern, on code points below 256: tab, newline,
    vertical tab, form feed, carriage return, the four separators
    0x1c-0x1f, the space, next line (0x85) and the no-break space (0xa0). *)
Definition is_space (c : ascii) : bool :=
  let n := nat_of_ascii c in
  (Nat.leb 9 n && Nat.leb n 13) || (Nat.leb 28 n && Nat.leb n 32) ||
  Nat.eqb n 133 || Nat.eqb n 160.

(** A character that is no whitespace, comma or double quote: the class
    written with a leading caret in the pattern. *)
Definition plain (c : ascii) : bool :=
  negb (is_space c || Ascii.eqb c ","%char || Ascii.eqb c Py.quote).

(** [.] (no DOTALL flag) *)
Definition dot (c : ascii) : bool := negb (Ascii.eqb c Py.newline).

(** Inside a quoted span: a backslash with the character after it, or any
    character but the double quote. *)
Definition quoted_item : regex :=
  Alt (Seq (Class (Ascii.eqb Py.backslash)) (Class dot))
      (Class (fun c => negb (Ascii.eqb c Py.quote))).

(** A double quote, any number of items, a double quote. *)
Definition quoted_span : regex :=
  Seq (Class (Ascii.eqb Py.quote))
      (Seq (Star quoted_item) (Class (Ascii.eqb Py.quote))).

(** A plain character or a quoted span. *)
Definition ITEM : regex := Alt (Class plain) quoted_span.

(** The pattern of [multi_key_parse]: one or more plain characters or
    quoted spans, with no separator between them. *)
Definition TOKEN : regex := Plus ITEM.

(** The loop of [Star], with its counter explicit. *)
Definition star_loop {A : Type} (r : regex) (k : string -> option A) :=
  fix loop (n : nat) (s : string) {struct n} : option A :=
    match n with
    | 0 => k s
    | S n' =>
        match bt r s (fun s1 => if Nat.ltb (String.length s1) (String.length s)
                                then loop n' s1 else None) with
        | Some x => Some x
        | None => k s
        end
    end.

End Re.

(** ** Tables ([pandas.DataFrame]) *)

(** A table cell: a string, or [None] for [np.nan]. *)
Definition cell : Type := option string.

Record DataFrame : Type := {
  columns : list string;
  rows : list (list cell)
}.

(** [pd.DataFrame(columns=cols)] *)
Definition frame (cols : list string) : DataFrame :=
  {| columns := cols; rows := [] |}.

(** The row a dict gives under a column header: its cells taken by column
    name, [np.nan] for a column the dict lacks. *)
Definition row (cols : list string) (rec : gmap string cell) : list cell :=
  (fun c => default None (rec !! c)) <$> cols.

(** The keys of a dict that are no column yet, in sorted order. *)
Definition new_columns (cols : list string) (rec : gmap string cell) : list string :=
  merge_sort String.le (filter (fun k => k ∉ cols) (elements (dom rec))).

(** [df.append(rec, ignore_index=True)] for a dict [rec]: the keys of [rec]
    that are no column become columns, after the old ones, with [np.nan] in
    the rows already there; [rec] then gives one more row. *)
Definition append (df : DataFrame) (rec : gmap string cell) : DataFrame :=
  let extra := new_columns (columns df) rec in
  let cols := columns df ++ extra in
  {| columns := cols;
     rows := ((fun r => r ++ replicate (length extra) None) <$> rows df)
             ++ [row cols rec] |}.

(** ** The converter *)

Record Vcf2Excel : Type := {
  md_keypairs : DataFrame;
  md_info : DataFrame;
  md_filter : DataFrame;
  md_format : DataFrame;
  md_alt : DataFrame;
  md_contig : DataFrame;
  md_sample : DataFrame;
  md_pedigree : DataFrame
}.

(** The tables of [__init__], before any header line is read. *)
Definition empty_tables : Vcf2Excel := {|
  md_keypairs := frame ["Name"; "Value"];
  md_info := frame ["ID"; "Number"; "Type"; "Description"; "Source"; "Version"];
  md_filter := frame ["ID"; "Description"];
  md_format := frame ["ID"; "Number"; "Type"; "Description"];
  md_alt := frame ["ID"; "Description"];
  md_contig := frame ["ID"; "URL"];
  md_sample := frame ["ID"; "Genomes"; "Mixture"; "Description"];
  md_pedigree := frame ["Name"; "Genome"]
|}.

(** [{pair[0]: pair[1] for pair in keyvals}], filling [d] from the left: a
    later pair overwrites an earlier one with the same key. *)
Fixpoint dict_of (keyvals : list (list string)) (d : gmap string string)
  : result (gmap string string) :=
  match keyvals with
  | [] => Ok d
  | kv :: keyvals' =>
      k ← item kv 0;
      v ← item kv 1;
      dict_of keyvals' (<[k := v]> d)
  end.

(** The loop over [fields]: [vals_d[field]], or [np.nan] on [KeyError]. *)
Definition new_rec (vals_d : gmap string string) (fields : list string)
  : gmap string cell :=
  foldl (fun rec field => <[field := vals_d !! field]> rec) ∅ fields.

Definition multi_key_parse (line : string) (fields : list string)
  : result (gmap string cell) :=
  piece ← item (Py.split "=<" line) 1;
  let line := Py.drop_last piece in
  let pairs := Re.findall Re.TOKEN line in
  let keyvals := Py.split "=" <$> pairs in
  vals_d ← dict_of keyvals ∅;
  Ok (new_rec vals_d fields).

Definition parse_pedigree (line : string) (self : Vcf2Excel) : result Vcf2Excel :=
  Err NotImplementedError.

(** [self.md_keypairs = df] and the like. *)
Definition set_md_keypairs (df : DataFrame) (self : Vcf2Excel) : Vcf2Excel :=
  {| md_keypairs := df; md_info := md_info self; md_filter := md_filter self;
     md_format := md_format self; md_alt := md_alt self;
     md_contig := md_contig self; md_sample := md_sample self;
     md_pedigree := md_pedigree self |}.

Definition set_md_info (df : DataFrame) (self : Vcf2Excel) : Vcf2Excel :=
  {| md_keypairs := md_keypairs self; md_info := df; md_filter := md_filter self;
     md_format := md_format self; md_alt := md_alt self;
     md_contig := md_contig self; md_sample := md_sample self;
     md_pedigree := md_pedigree self |}.

Definition set_md_filter (df : DataFrame) (self : Vcf2Excel) : Vcf2Excel :=
  {| md_keypairs := md_keypairs self; md_info := md_info self; md_filter := df;
     md_format := md_format self; md_alt := md_alt self;
     md_contig := md_contig self; md_sample := md_sample self;
     md_pedigree := md_pedigree self |}.

Definition set_md_format (df : DataFrame) (self : Vcf2Excel) : Vcf2Excel :=
  {| md_keypairs := md_keypairs self; md_info := md_info self;
     md_filter := md_filter self; md_format := df; md_alt := md_alt self;
     md_contig := md_contig self; md_sample := md_sample self;
     md_pedigree := md_pedigree self |}.

Definition set_md_alt (df : DataFrame) (self : Vcf2Excel) : Vcf2Excel :=
  {| md_keypairs := md_keypairs self; md_info := md_info self;
     md_filter := md_filter self; md_format := md_format self; md_alt := df;
     md_contig := md_contig self; md_sample := md_sample self;
     md_pedigree := md_pedigree self |}.

Definition set_md_contig (df : DataFrame) (self : Vcf2Excel) : Vcf2Excel :=
  {| md_keypairs := md_keypairs self; md_info := md_info self;
     md_filter := md_filter self; md_format := md_format self;
     md_alt := md_alt self; md_contig := df; md_sample := md_sample self;
     md_pedigree := md_pedigree self |}.

Definition set_md_sample (df : DataFrame) (self : Vcf2Excel) : Vcf2Excel :=
  {| md_keypairs := md_keypairs self; md_info := md_info self;
     md_filter := md_filter self; md_format := md_format self;
     md_alt := md_alt self; md_contig := md_contig self; md_sample := df;
     md_pedigree := md_pedigree self |}.

(** The dict [{'Name': key, 'Value': value}]. *)
Definition keypair_rec (key value : string) : gmap string cell :=
  <["Value" := Some value]> (<["Name" := Some key]> ∅).

Definition parse_keypair (line : string) (self : Vcf2Excel) : result Vcf2Excel :=
  match Py.split "=" line with
  | [key; value] =>
      Ok (set_md_keypairs (append (md_keypairs self) (keypair_rec key value)) self)
  | _ => Err (ValueError "unpack")
  end.

(** The body of the loop of [parse_headers], after the marker test: [line] is
    the stripped line. *)
Definition header_line (line : string) (self : Vcf2Excel) : result Vcf2Excel :=
  if Py.startswith "INFO" line then
    rec ← multi_key_parse line (columns (md_info self));
    Ok (set_md_info (append (md_info self) rec) self)
  else if Py.startswith "FILTER" line then
    rec ← multi_key_parse line (columns (md_filter self));
    Ok (set_md_filter (append (md_filter self) rec) self)
  else if Py.startswith "FORMAT" line then
    rec ← multi_key_parse line (columns (md_format self));
    Ok (set_md_format (append (md_format self) rec) self)
  else if Py.startswith "ALT" line then
    rec ← multi_key_parse line (columns (md_alt self));
    Ok (set_md_alt (append (md_alt self) rec) self)
  else if Py.startswith "contig" line then
    rec ← multi_key_parse line (columns (md_contig self));
    Ok (set_md_contig (append (md_contig self) rec) self)
  else if Py.startswith "SAMPLE" line then
    rec ← multi_key_parse line (columns (md_sample self));
    Ok (set_md_sample (append (md_sample self) rec) self)
  else if Py.startswith "PEDIGREE" line then
    parse_pedigree line self
  else if Nat.eqb (length (Py.split "=" line)) 2 then
    parse_keypair line self
  else
    Err (ValueError ("Invalid header line: " +:+ line)).

(** The loop of [parse_headers] over the lines of the raw header: it returns
    at the first line whose first two characters are not the marker. *)
Fixpoint parse_lines (lines : list string) (self : Vcf2Excel) : result Vcf2Excel :=
  match lines with
  | [] => Ok self
  | line :: lines' =>
      if negb (String.eqb (Py.take 2 line) "##") then Ok self
      else
        self' ← header_line (Py.strip "##" line) self;
        parse_lines lines' self'
  end.

Definition parse_headers (raw_header : string) (self : Vcf2Excel) : result Vcf2Excel :=
  parse_lines (Py.split (String Py.newline "") raw_header) self.

(** ** The spreadsheet sink *)

(** A cell of a written sheet. *)
Inductive xl : Type :=
  | Blank
  | Text (s : string)
  | Number (n : nat).

Record sheet : Type := {
  sheet_name : string;
  grid : list (list xl)
}.

Definition workbook : Type := list sheet.

(** What the writer stores for a cell: [np.nan] is first replaced by
    [na_rep], left at its default, the empty string; the empty string is
    stored as a blank cell, any other string as text. *)
Definition render_cell (c : cell) : xl :=
  let val := default "" c in
  if String.eqb val "" then Blank else Text val.

(** [df.to_excel(writer, sheet_name=name)] with the defaults [header=True]
    and [index=True]: the column names in the first row, after an empty
    corner cell, and each record after its row label; the labels are
    0, 1, 2, ... since every row was appended with [ignore_index=True]. *)
Definition to_excel (df : DataFrame) (name : string) (writer : workbook) : workbook :=
  writer ++
  [{| sheet_name := name;
      grid := (Blank :: (Text <$> columns df))
              :: imap (fun i row => Number i :: (render_cell <$> row)) (rows df) |}].

(** [write_spreadsheet]: the eight tables go to a fresh writer, which
    [writer.save()] stores at [outpath]. *)
Definition write_spreadsheet (self : Vcf2Excel) (outpath : string)
  (files : gmap string workbook) : gmap string workbook :=
  let writer : workbook := [] in
  let writer := to_excel (md_keypairs self) "File Metadata" writer in
  let writer := to_excel (md_info self) "INFO" writer in
  let writer := to_excel (md_filter self) "FILTER" writer in
  let writer := to_excel (md_format self) "FORMAT" writer in
  let writer := to_excel (md_alt self) "ALT" writer in
  let writer := to_excel (md_contig self) "contig" writer in
  let writer := to_excel (md_sample self) "SAMPLE" writer in
  let writer := to_excel (md_pedigree self) "PEDIGREE" writer in
  <[outpath := writer]> files.

(** [Vcf2Excel(vcfpath, outpath)]: [raw_header] is what the reader gives for
    [vcfpath].  An exception of [parse_headers] leaves [__init__] before
    [write_spreadsheet] is reached. *)
Definition Vcf2Excel_init (raw_header outpath : string)
  (files : gmap string workbook) : result Vcf2Excel * gmap string workbook :=
  match parse_headers raw_header empty_tables with
  | Ok self => (Ok self, write_spreadsheet self outpath files)
  | Err e => (Err e, files)
  end.

(** ** Well-formed attribute text

    The shape of the text between the brackets of an attribute line: fields
    [name=value] kept apart by commas or whitespace, a value being made of
    plain characters and double-quoted spans. *)

(** A separator: whitespace or a comma. *)
Definition is_sep (c : ascii) : bool :=
  Re.is_space c || Ascii.eqb c ","%char.

(** The text stops a token here: at its end or at a separator. *)
Definition at_boundary (s : string) : bool :=
  match s with
  | "" => true
  | String c _ => is_sep c
  end.

(** The inside of a quoted span: no bare double quote, and every backslash
    escapes the character after it. *)
Fixpoint escapedb (s : string) : bool :=
  match s with
  | "" => true
  | String c s' =>
      if Ascii.eqb c Py.quote then false
      else if Ascii.eqb c Py.backslash then
        match s' with
        | "" => false
        | String d s'' => Re.dot d && escapedb s''
        end
      else escapedb s'
  end.

(** Plain characters and closed quoted spans; [inq] tells whether the scan is
    inside a span. *)
Fixpoint chunksb (inq : bool) (s : string) : bool :=
  match s with
  | "" => negb inq
  | String c s' =>
      if inq then
        if Ascii.eqb c Py.quote then chunksb false s'
        else if Ascii.eqb c Py.backslash then
          match s' with
          | "" => false
          | String d s'' => Re.dot d && chunksb true s''
          end
        else chunksb true s'
      else
        if Ascii.eqb c Py.quote then chunksb true s'
        else Re.plain c && chunksb false s'
  end.

Definition quoted (body : string) : string :=
  String Py.quote (body +:+ String Py.quote "").

Definition no_eq (s : string) : bool := negb (Py.mem "="%char s).

(** A field: name and value are chunk sequences without [=], and the value
    does not open with [<]. *)
Definition wf_field (name value : string) : bool :=
  chunksb false name && no_eq name &&
  chunksb false value && no_eq value && negb (Py.startswith "<" value).

Inductive piece : Type :=
  | Gap (c : ascii)
  | Attr (name value : string).

Definition render_field (f : string * string) : string :=
  f.1 +:+ "=" +:+ f.2.

Fixpoint render (ps : list piece) : string :=
  match ps with
  | [] => ""
  | Gap c :: ps' => String c (render ps')
  | Attr n v :: ps' => render_field (n, v) +:+ render ps'
  end.

Fixpoint fields_of (ps : list piece) : list (string * string) :=
  match ps with
  | [] => []
  | Gap _ :: ps' => fields_of ps'
  | Attr n v :: ps' => (n, v) :: fields_of ps'
  end.

(** Every gap is a separator, every field is well formed and is followed by
    a gap or by the end of the text. *)
Fixpoint wf_pieces (ps : list piece) : bool :=
  match ps with
  | [] => true
  | Gap c :: ps' => is_sep c && wf_pieces ps'
  | Attr n v :: ps' =>
      wf_field n v &&
      match ps' with
      | Attr _ _ :: _ => false
      | _ => true
      end &&
      wf_pieces ps'
  end.

(** The attribute line of category [cat] with the text of [ps] between its
    brackets. *)
Definition attr_line (cat : string) (ps : list piece) : string :=
  cat +:+ "=<" +:+ render ps +:+ ">".

(** The fields joined by commas. *)
Fixpoint serialize (fs : list (string * string)) : list piece :=
  match fs with
  | [] => []
  | [f] => [Attr f.1 f.2]
  | f :: fs' => Attr f.1 f.2 :: Gap ","%char :: serialize fs'
  end.

(** What the dict comprehension holds for well-split pairs. *)
Definition dict_pairs (fs : list (string * string)) : gmap string string :=
  foldl (fun d f => <[f.1 := f.2]> d) ∅ fs.

(** The value a list of [=]-split tokens gives to [field]: that of the last
    token named [field]. *)
Definition field_value (field : string) (keyvals : list (list string)) : option string :=
  last (omap (fun kv => match kv with
                        | k :: v :: _ => if decide (k = field) then Some v else None
                        | _ => None
                        end) keyvals).

(** The values the pairs [fs] give to [f], in order. *)
Definition values_of (f : string) (fs : list (string * string)) : list string :=
  omap (fun p => if decide (p.1 = f) then Some p.2 else None) fs.

(** The fields a record holds a value for, as [(field, value)] pairs. *)
Definition present (rec : gmap string cell) : list (string * string) :=
  omap (fun p => pair p.1 <$> p.2) (map_to_list rec).

(** ** Classification, in the words of the specification

    The category of a stripped line is the first entry of an ordered list of
    prefixes that the line starts with; a line with none of them is a key
    pair when splitting it on [=] gives exactly two pieces. *)

Inductive category : Type :=
  | INFO | FILTER | FORMAT | ALT | CONTIG | SAMPLE | PEDIGREE | KEYPAIR.

Global Instance category_eq_dec : EqDecision category.
Proof. solve_decision. Defined.

Definition prefixes : list (string * category) :=
  [("INFO", INFO); ("FILTER", FILTER); ("FORMAT", FORMAT); ("ALT", ALT);
   ("contig", CONTIG); ("SAMPLE", SAMPLE); ("PEDIGREE", PEDIGREE)].

Definition classify (line : string) : option category :=
  match List.find (fun p => Py.startswith p.1 line) prefixes with
  | Some p => Some p.2
  | None =>
      if Nat.eqb (length (Py.split "=" line)) 2 then Some KEYPAIR else None
  end.

(** The table of a category. *)
Definition table (c : category) (self : Vcf2Excel) : DataFrame :=
  match c with
  | INFO => md_info self
  | FILTER => md_filter self
  | FORMAT => md_format self
  | ALT => md_alt self
  | CONTIG => md_contig self
  | SAMPLE => md_sample self
  | PEDIGREE => md_pedigree self
  | KEYPAIR => md_keypairs self
  end.

(** The program never assigns [md_pedigree]. *)
Definition set_table (c : category) (df : DataFrame) (self : Vcf2Excel) : Vcf2Excel :=
  match c with
  | INFO => set_md_info df self
  | FILTER => set_md_filter df self
  | FORMAT => set_md_format df self
  | ALT => set_md_alt df self
  | CONTIG => set_md_contig df self
  | SAMPLE => set_md_sample df self
  | PEDIGREE => self
  | KEYPAIR => set_md_keypairs df self
  end.

(** The fixed column header of a category. *)
Definition header (c : category) : list string := columns (table c empty_tables).

(** The record of a line of category [c]: the name and value on either side
    of the first [=] for a key pair, the expected fields for an attribute
    line; a PEDIGREE line fails. *)
Definition record_of (c : category) (line : string) (fields : list string)
  : result (gmap string cell) :=
  match c with
  | KEYPAIR =>
      match Py.cut "=" line with
      | (name, Some value) => Ok (keypair_rec name value)
      | _ => Err (ValueError "unpack")
      end
  | PEDIGREE => Err NotImplementedError
  | _ => multi_key_parse line fields
  end.

(** What a line does to the tables: its record goes to the table of its
    category; a line of no category fails. *)
Definition record_line (line : string) (self : Vcf2Excel) : result Vcf2Excel :=
  match classify line with
  | Some c =>
      rec ← record_of c line (columns (table c self));
      Ok (set_table c (append (table c self) rec) self)
  | None => Err (ValueError ("Invalid header line: " +:+ line))
  end.

(** A line begins with the two-character marker. *)
Definition marked (line : string) : bool := String.eqb (Py.take 2 line) "##".

(** The lines of the header block: those before the first unmarked line. *)
Fixpoint header_block (lines : list string) : list string :=
  match lines with
  | [] => []
  | line :: lines' => if marked line then line :: header_block lines' else []
  end.

(** The rows the header block gives to the table of [c], in line order. *)
Definition rows_for (c : category) (lines : list string) : list (list cell) :=
  omap (fun line =>
          let line := Py.strip "##" line in
          if decide (classify line = Some c) then
            match record_of c line (header c) with
            | Ok rec => Some (row (header c) rec)
            | Err _ => None
            end
          else None)
       (header_block lines).

(** The sheets, in the order they are written. *)
Definition sheets : list (string * category) :=
  [("File Metadata", KEYPAIR); ("INFO", INFO); ("FILTER", FILTER);
   ("FORMAT", FORMAT); ("ALT", ALT); ("contig", CONTIG); ("SAMPLE", SAMPLE);
   ("PEDIGREE", PEDIGREE)].

(** A line of no category, or a PEDIGREE line. *)
Definition fatal (line : string) : bool :=
  match classify line with
  | None | Some PEDIGREE => true
  | Some _ => false
  end.

(** A line that opens with one of the six attribute prefixes. *)
Definition attr_prefixed (line : string) : bool :=
  Py.startswith "INFO" line || Py.startswith "FILTER" line ||
  Py.startswith "FORMAT" line || Py.startswith "ALT" line ||
  Py.startswith "contig" line || Py.startswith "SAMPLE" line.


(** A cell as the sheet shows it: blank for the absent marker and for the
    empty string, the text otherwise. *)
Definition shown (c : cell) : xl :=
  match c with
  | Some (String a s) => Text (String a s)
  | _ => Blank
  end.

(** A sheet with row labels: an empty corner cell and the column header in
    the first row, then each row after its position, counted from 0. *)
Definition labelled_sheet (name : string) (cols : list string)
  (rws : list (list cell)) : sheet :=
  {| sheet_name := name;
     grid := (Blank :: (Text <$> cols))
             :: imap (fun i r => Number i :: (shown <$> r)) rws |}.

(** ** The command line *)

(** How a run of the script ends: [sys.exit(status)], an uncaught exception,
    or the end of the script. *)
Inductive outcome : Type :=
  | Exited (status : nat)
  | Raised (e : exn)
  | Completed.

(** What a run can change: the lines printed and the files. *)
Record world : Type := {
  stdout : list string;
  files : gmap string workbook
}.

Definition usage : string :=
  "Usage: python Vcf2Excel.py <input_vcf_path> <output_vcf_path>".

Section Main.

(** [VCF(vcfpath).raw_header], the header text the reader gives for a path. *)
Variable raw_header_of : string -> string.

(** The script: [sys.argv[1]] and [sys.argv[2]] under [except IndexError],
    then the conversion outside of it. *)
Definition main (argv : list string) (w : world) : outcome * world :=
  match (vcfpath ← item argv 1; outpath ← item argv 2; Ok (vcfpath, outpath)) with
  | Err IndexError =>
      (Exited 1, {| stdout := stdout w ++ [usage]; files := files w |})
  | Err e => (Raised e, w)
  | Ok (vcfpath, outpath) =>
      match Vcf2Excel_init (raw_header_of vcfpath) outpath (files w) with
      | (Ok _, fs) => (Completed, {| stdout := stdout w; files := fs |})
      | (Err e, fs) => (Raised e, {| stdout := stdout w; files := fs |})
      end
  end.

End Main.

(** ** Measures used in the statements *)

(** The number of occurrences of [c] in [s]. *)
Fixpoint count_char (c : ascii) (s : string) : nat :=
  match s with
  | "" => 0
  | String d s' => (if Ascii.eqb c d then 1 else 0) + count_char c s'
  end.

(** The first, the last character of [s] is one of [chars]. *)
Definition head_in (chars s : string) : bool :=
  match s with
  | "" => false
  | String c _ => Py.mem c chars
  end.

Fixpoint last_in (chars s : string) : bool :=
  match s with
  | "" => false
  | String c "" => Py.mem c chars
  | String _ s' => last_in chars s'
  end.

Definition categories : list category :=
  [KEYPAIR; INFO; FILTER; FORMAT; ALT; CONTIG; SAMPLE; PEDIGREE].

(** The rows of all the tables, counted. *)
Definition total_rows (self : Vcf2Excel) : nat :=
  sum_list ((fun c => length (rows (table c self))) <$> categories).

(** A marked line has a category and its record parses. *)
Definition line_ok (line : string) : bool :=
  let line := Py.strip "##" line in
  match classify line with
  | Some c =>
      match record_of c line (header c) with
      | Ok _ => true
      | Err _ => false
      end
  | None => false
  end.

(** ** Sample inputs *)

(** A double quote, as a one-character string. *)
Definition dq : string := String Py.quote "".

Definition info_fields : list string :=
  ["ID"; "Number"; "Type"; "Description"; "Source"; "Version"].

(** The inside of a quoted value with an escaped quote: a, backslash and
    quote, b, backslash and quote, c. *)
Definition escaped_body : string := "a \" +:+ dq +:+ "b\" +:+ dq +:+ " c".


(** A header of one INFO line and the column line. *)
Definition sample_header : string :=
  "##INFO=<ID=DP,Number=1>" +:+ String Py.newline "#CHROM".

(** * Facts about the string primitives *)

Section StringFacts.

Lemma str_app_cons c s t : String c s +:+ t = String c (s +:+ t).
Proof. reflexivity. Qed.

Lemma str_app_nil_l s : "" +:+ s = s.
Proof. reflexivity. Qed.

Lemma str_app_nil_r s : s +:+ "" = s.
Proof. induction s as [|c s IH]; [done|]. by rewrite str_app_cons, IH. Qed.

Lemma str_app_assoc a b c : (a +:+ b) +:+ c = a +:+ b +:+ c.
Proof. induction a as [|x a IH]; [done|]. by rewrite !str_app_cons, IH. Qed.

Lemma str_length_app a b :
  String.length (a +:+ b) = String.length a + String.length b.
Proof. induction a as [|x a IH]; [done|]. rewrite str_app_cons. simpl. by rewrite IH. Qed.

Lemma take_app_length a b : Py.take (String.length a) (a +:+ b) = a.
Proof. induction a as [|x a IH]; [by destruct b|]. rewrite str_app_cons. simpl. by rewrite IH. Qed.

Lemma drop_app_length a b : Py.drop (String.length a) (a +:+ b) = b.
Proof. induction a as [|x a IH]; [by destruct b|]. rewrite str_app_cons. simpl. by rewrite IH. Qed.

Lemma drop_last_snoc s c : Py.drop_last (s +:+ String c "") = s.
Proof.
  induction s as [|x s IH]; [done|].
  rewrite str_app_cons. simpl. rewrite IH.
  destruct s; reflexivity.
Qed.

Lemma startswith_app p s : Py.startswith p (p +:+ s) = true.
Proof.
  unfold Py.startswith. induction p as [|x p IH]; [by destruct s|].
  rewrite str_app_cons. simpl. destruct (ascii_dec x x); [done|congruence].
Qed.

Lemma startswith_head e p c s :
  c ≠ e → Py.startswith (String e p) (String c s) = false.
Proof.
  intros Hne. unfold Py.startswith. simpl.
  destruct (ascii_dec e c); [congruence|done].
Qed.

Lemma startswith_char e c s :
  Py.startswith (String e "") (String c s) = Ascii.eqb e c.
Proof.
  unfold Py.startswith. cbn [String.prefix].
  destruct (ascii_dec e c) as [->|Hne].
  - rewrite Ascii.eqb_refl. by destruct s.
  - symmetry. by apply Ascii.eqb_neq.
Qed.

Lemma startswith_empty e p : Py.startswith (String e p) "" = false.
Proof. reflexivity. Qed.

Lemma mem_cons_false c d s :
  Py.mem c (String d s) = false ↔ c ≠ d ∧ Py.mem c s = false.
Proof.
  simpl. rewrite orb_false_iff. split; intros [H1 H2]; split; try done.
  - by apply Ascii.eqb_neq.
  - by apply Ascii.eqb_neq.
Qed.

Lemma mem_app_false c a b :
  Py.mem c (a +:+ b) = false ↔ Py.mem c a = false ∧ Py.mem c b = false.
Proof.
  induction a as [|x a IH]; [rewrite str_app_nil_l; simpl; tauto|].
  rewrite str_app_cons, !mem_cons_false, IH. tauto.
Qed.

(** ** [cut] and [split] *)

Lemma cut_eq sep s :
  Py.cut sep s =
  if Py.startswith sep s then ("", Some (Py.drop (String.length sep) s))
  else match s with
       | "" => ("", None)
       | String c s' => let (a, r) := Py.cut sep s' in (String c a, r)
       end.
Proof. by destruct s. Qed.

Lemma cut_first e p a b :
  Py.mem e a = false →
  Py.cut (String e p) (a +:+ String e p +:+ b) = (a, Some b).
Proof.
  induction a as [|c a IH]; intros Ha.
  - by rewrite str_app_nil_l, cut_eq, startswith_app, drop_app_length.
  - apply mem_cons_false in Ha as [Hne Ha].
    rewrite str_app_cons, cut_eq.
    rewrite startswith_head by done. by rewrite IH.
Qed.

Lemma cut_none sep s :
  Py.contains sep s = false → Py.cut sep s = (s, None).
Proof.
  induction s as [|c s IH]; simpl; intros H.
  - apply orb_false_iff in H as [-> _]. done.
  - apply orb_false_iff in H as [-> H]. by rewrite IH.
Qed.

Lemma length_drop n s :
  String.length (Py.drop n s) = String.length s - n.
Proof.
  revert s. induction n as [|n IH]; intros [|c s]; simpl; done.
Qed.

Lemma cut_some_length e p s a r :
  Py.cut (String e p) s = (a, Some r) → String.length r < String.length s.
Proof.
  revert a. induction s as [|c s IH]; intros a; rewrite cut_eq.
  - rewrite startswith_empty. congruence.
  - destruct (Py.startswith (String e p) (String c s)) eqn:E.
    + intros [= <- <-]. rewrite length_drop. simpl. lia.
    + destruct (Py.cut (String e p) s) as [a' r'] eqn:E'.
      intros [= <- ->]. specialize (IH _ eq_refl). simpl. lia.
Qed.

Lemma split_fuel_enough e p n s :
  String.length s ≤ n →
  Py.split_fuel n (String e p) s = Py.split (String e p) s.
Proof.
  unfold Py.split. revert s.
  induction (lt_wf n) as [n _ IH]; intros s Hn.
  destruct n as [|n], (String.length s) as [|m] eqn:Hm; try lia.
  - done.
  - simpl. destruct (Py.cut _ s) as [a [r|]] eqn:E; [|done].
    apply cut_some_length in E. lia.
  - simpl. destruct (Py.cut _ s) as [a [r|]] eqn:E; [|done].
    pose proof (cut_some_length _ _ _ _ _ E).
    f_equal. rewrite (IH n) by lia. symmetry. apply IH; lia.
Qed.

(** The equation of [split]: one cut, then the rest. *)
Lemma split_eq e p s :
  Py.split (String e p) s =
  match Py.cut (String e p) s with
  | (a, None) => [a]
  | (a, Some r) => a :: Py.split (String e p) r
  end.
Proof.
  unfold Py.split at 1.
  destruct (String.length s) as [|n] eqn:Hn; simpl;
    destruct (Py.cut _ s) as [a [r|]] eqn:E; try done.
  - apply cut_some_length in E. lia.
  - f_equal. apply split_fuel_enough.
    apply cut_some_length in E. lia.
Qed.

Lemma split_none sep s :
  Py.contains sep s = false → Py.split sep s = [s].
Proof.
  intros H. unfold Py.split.
  destruct (String.length s); simpl; by rewrite (cut_none _ _ H).
Qed.

Lemma split_first e p a b :
  Py.mem e a = false →
  Py.split (String e p) (a +:+ String e p +:+ b) = a :: Py.split (String e p) b.
Proof. intros Ha. by rewrite split_eq, cut_first. Qed.

Lemma contains_char e s : Py.contains (String e "") s = Py.mem e s.
Proof.
  induction s as [|c s IH]; [done|].
  simpl. rewrite IH. f_equal. unfold Py.startswith. simpl.
  destruct (ascii_dec e c) as [->|Hne].
  - destruct s; by rewrite Ascii.eqb_refl.
  - symmetry. by apply Ascii.eqb_neq.
Qed.

(** A single [=] between two texts without one: exactly two pieces. *)
Lemma split_pair e a b :
  Py.mem e a = false → Py.mem e b = false →
  Py.split (String e "") (a +:+ String e "" +:+ b) = [a; b].
Proof.
  intros Ha Hb. rewrite split_first by done.
  by rewrite split_none by (by rewrite contains_char).
Qed.

End StringFacts.

(** * Facts about the matcher *)

Section MatcherFacts.

Context {A : Type}.

Lemma bt_star_loop r s (k : string → option A) :
  Re.bt (Re.Star r) s k = Re.star_loop r k (String.length s) s.
Proof. reflexivity. Qed.

Lemma bt_ext r : ∀ s (k1 k2 : string → option A),
  (∀ x, k1 x = k2 x) → Re.bt r s k1 = Re.bt r s k2.
Proof.
  induction r as [p|r1 IH1 r2 IH2|r1 IH1 r2 IH2|r IH]; intros s k1 k2 Hk.
  - destruct s as [|c s]; simpl; [done|]. by rewrite Hk.
  - simpl. apply IH1. intros x. by apply IH2.
  - simpl. rewrite (IH1 s k1 k2 Hk), (IH2 s k1 k2 Hk). done.
  - rewrite !bt_star_loop. generalize (String.length s) as n. intros n.
    revert s. induction n as [|n IHn]; intros s; simpl; [done|].
    rewrite Hk. erewrite IH; [reflexivity|].
    intros x. simpl. by rewrite IHn.
Qed.

Lemma bt_fail r : ∀ s, Re.bt r s (fun _ => @None A) = None.
Proof.
  induction r as [p|r1 IH1 r2 IH2|r1 IH1 r2 IH2|r IH]; intros s.
  - destruct s as [|c s]; simpl; [done|]. by destruct (p c).
  - simpl. erewrite bt_ext; [apply IH1|]. intros x. simpl. apply IH2.
  - simpl. by rewrite IH1, IH2.
  - rewrite bt_star_loop. generalize (String.length s) as n. intros n.
    revert s. induction n as [|n IHn]; intros s; simpl; [done|].
    erewrite bt_ext; [by rewrite IH|].
    intros x. simpl. rewrite IHn. by destruct (Nat.ltb _ _).
Qed.

Lemma star_loop_enough r (k : string → option A) : ∀ n m s,
  String.length s ≤ n → String.length s ≤ m →
  Re.star_loop r k n s = Re.star_loop r k m s.
Proof.
  induction n as [|n IHn]; intros m s Hn Hm.
  - destruct m as [|m]; simpl; [done|].
    erewrite bt_ext; [by rewrite bt_fail|].
    intros x. simpl. destruct (Nat.ltb_spec (String.length x) (String.length s)); [lia|done].
  - destruct m as [|m]; simpl.
    + erewrite bt_ext; [by rewrite bt_fail|].
      intros x. simpl. destruct (Nat.ltb_spec (String.length x) (String.length s)); [lia|done].
    + erewrite bt_ext; [reflexivity|].
      intros x. simpl.
      destruct (Nat.ltb_spec (String.length x) (String.length s)); [|done].
      apply IHn; lia.
Qed.

(** The equation of greedy repetition: one more item and the loop again,
    or, when that fails, what follows the loop. *)
Lemma bt_star r s (k : string → option A) :
  Re.bt (Re.Star r) s k =
  match Re.bt r s (fun s1 => if Nat.ltb (String.length s1) (String.length s)
                             then Re.bt (Re.Star r) s1 k else None) with
  | Some x => Some x
  | None => k s
  end.
Proof.
  rewrite bt_star_loop.
  destruct (String.length s) as [|n] eqn:Hn.
  - simpl. by rewrite bt_fail.
  - transitivity
      (match Re.bt r s (fun s1 => if Nat.ltb (String.length s1) (S n)
                                  then Re.star_loop r k n s1 else None) with
       | Some x => Some x
       | None => k s
       end).
    + simpl. by rewrite Hn.
    + erewrite bt_ext; [reflexivity|].
      intros x. simpl.
      destruct (Nat.ltb_spec (String.length x) (S n)); [|done].
      apply star_loop_enough; lia.
Qed.

End MatcherFacts.

Section FindallFacts.

Lemma findall_fuel_enough r : ∀ n s,
  String.length s < n → Re.findall_fuel n r s = Re.findall r s.
Proof.
  unfold Re.findall.
  intros n. induction (lt_wf n) as [n _ IH]; intros s Hn.
  destruct n as [|n]; [lia|].
  simpl. destruct (Re.match_prefix r s) as [rest|].
  - destruct (Nat.ltb_spec 0 (String.length s - String.length rest)).
    + f_equal. rewrite (IH n) by lia. symmetry. apply IH; lia.
    + f_equal. destruct s as [|c s]; [done|].
      simpl in Hn. rewrite (IH n) by lia. symmetry. apply IH; simpl; lia.
  - destruct s as [|c s]; [done|].
    simpl in Hn. rewrite (IH n) by lia. symmetry. apply IH; simpl; lia.
Qed.

Lemma findall_fuel_S n r s :
  Re.findall_fuel (S n) r s =
  match Re.match_prefix r s with
  | Some rest =>
      let k := String.length s - String.length rest in
      if Nat.ltb 0 k then Py.take k s :: Re.findall_fuel n r rest
      else "" :: match s with
                 | "" => []
                 | String _ s' => Re.findall_fuel n r s'
                 end
  | None =>
      match s with
      | "" => []
      | String _ s' => Re.findall_fuel n r s'
      end
  end.
Proof. reflexivity. Qed.

(** No match at the current position: the scan moves one character on. *)
Lemma findall_skip r c s :
  Re.match_prefix r (String c s) = None →
  Re.findall r (String c s) = Re.findall r s.
Proof.
  intros H. unfold Re.findall at 1. rewrite findall_fuel_S, H.
  apply findall_fuel_enough. simpl. lia.
Qed.

Lemma findall_empty r :
  Re.match_prefix r "" = None → Re.findall r "" = [].
Proof. intros H. unfold Re.findall. by rewrite findall_fuel_S, H. Qed.

(** A non-empty match [t] at the current position: [t] is the next result
    and the scan resumes after it. *)
Lemma findall_match r c t rest :
  Re.match_prefix r (String c t +:+ rest) = Some rest →
  Re.findall r (String c t +:+ rest) = String c t :: Re.findall r rest.
Proof.
  intros H. unfold Re.findall at 1. rewrite findall_fuel_S, H.
  cbv zeta. rewrite str_length_app.
  replace (String.length (String c t) + String.length rest - String.length rest)
    with (String.length (String c t)) by lia.
  rewrite take_app_length. simpl Nat.ltb. cbv iota.
  f_equal. apply findall_fuel_enough. simpl. lia.
Qed.

End FindallFacts.

(** * The token pattern on well-formed text *)

Section TokenFacts.

Lemma plain_not_quote c : Re.plain c = true → Ascii.eqb c Py.quote = false.
Proof.
  unfold Re.plain. intros H. apply negb_true_iff in H.
  by apply orb_false_iff in H as [_ H].
Qed.

Lemma sep_not_plain c : is_sep c = true → Re.plain c = false.
Proof.
  unfold is_sep, Re.plain. intros H. apply negb_false_iff.
  apply orb_true_iff. left. done.
Qed.

Lemma sep_not_quote c : is_sep c = true → Ascii.eqb c Py.quote = false.
Proof.
  intros H. destruct (Ascii.eqb_spec c Py.quote) as [->|]; [|done].
  by vm_compute in H.
Qed.

(** One plain character: the item is that character. *)
Lemma item_plain {A} c s (k : string → option A) :
  Re.plain c = true → Re.bt Re.ITEM (String c s) k = k s.
Proof.
  intros Hp. pose proof (plain_not_quote _ Hp) as Hq.
  rewrite Ascii.eqb_sym in Hq.
  unfold Re.ITEM, Re.quoted_span. cbn [Re.bt]. rewrite Hp, Hq.
  by destruct (k s).
Qed.

(** No item starts at a boundary. *)
Lemma item_boundary {A} s (k : string → option A) :
  at_boundary s = true → Re.bt Re.ITEM s k = None.
Proof.
  destruct s as [|c s]; [done|]. intros Hs.
  change (is_sep c = true) in Hs.
  pose proof (sep_not_quote _ Hs) as Hq. rewrite Ascii.eqb_sym in Hq.
  unfold Re.ITEM, Re.quoted_span. cbn [Re.bt].
  by rewrite (sep_not_plain _ Hs), Hq.
Qed.

(** At a double quote the item is a quoted span. *)
Lemma item_quote {A} s (k : string → option A) :
  Re.bt Re.ITEM (String Py.quote s) k =
  Re.bt (Re.Star Re.quoted_item) s
        (fun s1 => Re.bt (Re.Class (Ascii.eqb Py.quote)) s1 k).
Proof. reflexivity. Qed.

Lemma class_quote {A} s (k : string → option A) :
  Re.bt (Re.Class (Ascii.eqb Py.quote)) (String Py.quote s) k = k s.
Proof. reflexivity. Qed.

(** Inside a span, the double quote is no item. *)
Lemma quoted_item_quote {A} s (k : string → option A) :
  Re.bt Re.quoted_item (String Py.quote s) k = None.
Proof. reflexivity. Qed.

Lemma quoted_item_escape {A} d s (k : string → option A) v :
  Re.dot d = true → k s = Some v →
  Re.bt Re.quoted_item (String Py.backslash (String d s)) k = Some v.
Proof.
  intros Hd Hk. unfold Re.quoted_item.
  cbn [Re.bt]. rewrite Ascii.eqb_refl, Hd, Hk. done.
Qed.

Lemma quoted_item_char {A} c s (k : string → option A) :
  Ascii.eqb c Py.quote = false → Ascii.eqb c Py.backslash = false →
  Re.bt Re.quoted_item (String c s) k = k s.
Proof.
  intros Hq Hb. unfold Re.quoted_item.
  cbn [Re.bt]. rewrite (Ascii.eqb_sym Py.backslash), Hb, Hq. done.
Qed.

Lemma ltb_length_cons c (s : string) :
  Nat.ltb (String.length s) (String.length (String c s)) = true.
Proof. apply Nat.ltb_lt. simpl. lia. Qed.

Lemma ltb_length_cons2 c d (s : string) :
  Nat.ltb (String.length s) (String.length (String c (String d s))) = true.
Proof. apply Nat.ltb_lt. simpl. lia. Qed.

(** The repetition consumes a chunk sequence up to the boundary; inside a
    span, the span is closed first and the repetition goes on. *)
Lemma chunks_star rest : at_boundary rest = true → ∀ n s,
  String.length s ≤ n →
  (chunksb false s = true →
   Re.bt (Re.Star Re.ITEM) (s +:+ rest) Some = Some rest) ∧
  (chunksb true s = true →
   ∀ k : string → option string,
     (∀ x, String.length x < String.length (s +:+ rest) →
           k x = Re.bt (Re.Star Re.ITEM) x Some) →
     Re.bt (Re.Star Re.quoted_item) (s +:+ rest)
           (fun s1 => Re.bt (Re.Class (Ascii.eqb Py.quote)) s1 k) = Some rest).
Proof.
  intros Hrest. induction n as [|n IH]; intros s Hn.
  { destruct s; [|simpl in Hn; lia]. split; [|done].
    intros _. rewrite str_app_nil_l, bt_star. by rewrite item_boundary. }
  destruct s as [|c s].
  { split; [|done]. intros _. rewrite str_app_nil_l, bt_star. by rewrite item_boundary. }
  simpl in Hn. rewrite str_app_cons. split.
  - (* outside a span *)
    cbn [chunksb]. destruct (Ascii.eqb_spec c Py.quote) as [->|Hq].
    + intros Hs. rewrite bt_star, item_quote.
      destruct (IH s ltac:(lia)) as [_ IHq]. rewrite IHq; [done|done|].
      intros x Hx. rewrite <-Nat.ltb_lt in Hx.
      assert (Nat.ltb (String.length x) (String.length (String Py.quote (s +:+ rest))) = true) as ->; [|done].
      apply Nat.ltb_lt. apply Nat.ltb_lt in Hx. simpl. lia.
    + intros [Hp Hs]%andb_true_iff. rewrite bt_star, item_plain by done.
      rewrite ltb_length_cons. destruct (IH s ltac:(lia)) as [IHp _].
      by rewrite IHp.
  - (* inside a span *)
    cbn [chunksb]. destruct (Ascii.eqb_spec c Py.quote) as [->|Hq].
    + intros Hs k Hk. rewrite bt_star, quoted_item_quote, class_quote.
      rewrite Hk by (simpl; lia).
      destruct (IH s ltac:(lia)) as [IHp _]. by apply IHp.
    + apply Ascii.eqb_neq in Hq.
      destruct (Ascii.eqb_spec c Py.backslash) as [->|Hb].
      * destruct s as [|d s]; [done|].
        intros [Hd Hs]%andb_true_iff k Hk. simpl in Hn.
        rewrite str_app_cons, bt_star.
        erewrite quoted_item_escape; [done|done|].
        rewrite ltb_length_cons2.
        destruct (IH s ltac:(lia)) as [_ IHq]. apply IHq; [done|].
        intros x Hx. apply Hk. rewrite !str_app_cons. simpl. lia.
      * apply Ascii.eqb_neq in Hb.
        intros Hs k Hk. rewrite bt_star, quoted_item_char by done.
        rewrite ltb_length_cons.
        destruct (IH s ltac:(lia)) as [_ IHq]. rewrite IHq; [done|done|].
        intros x Hx. apply Hk. simpl. lia.
Qed.

(** A non-empty chunk sequence before a boundary is one match of the
    token pattern. *)
Lemma token_match t rest :
  chunksb false t = true → t ≠ "" → at_boundary rest = true →
  Re.match_prefix Re.TOKEN (t +:+ rest) = Some rest.
Proof.
  intros Ht Hne Hrest. destruct t as [|c t]; [done|].
  unfold Re.match_prefix, Re.TOKEN, Re.Plus.
  change (Re.bt (Re.Seq ?r1 ?r2) ?s ?k) with (Re.bt r1 s (fun s1 => Re.bt r2 s1 k)).
  rewrite str_app_cons. simpl in Ht.
  destruct (Ascii.eqb_spec c Py.quote) as [->|Hq].
  - rewrite item_quote.
    by apply (proj2 (chunks_star rest Hrest _ t (le_n _))).
  - apply andb_true_iff in Ht as [Hp Ht]. rewrite item_plain by done.
    by apply (proj1 (chunks_star rest Hrest _ t (le_n _))).
Qed.

Lemma token_boundary s :
  at_boundary s = true → Re.match_prefix Re.TOKEN s = None.
Proof.
  intros Hs. unfold Re.match_prefix, Re.TOKEN, Re.Plus.
  change (Re.bt (Re.Seq ?r1 ?r2) ?s ?k) with (Re.bt r1 s (fun s1 => Re.bt r2 s1 k)).
  by apply item_boundary.
Qed.

End TokenFacts.

(** * Attribute lines of the well-formed shape *)

Section AttributeFacts.

Lemma chunksb_app : ∀ n a inq b,
  String.length a ≤ n →
  chunksb inq a = true → chunksb false b = true →
  chunksb inq (a +:+ b) = true.
Proof.
  induction n as [|n IH]; intros a inq b Hn Ha Hb.
  { destruct a; [|simpl in Hn; lia]. by destruct inq. }
  destruct a as [|c a]; [by destruct inq|].
  simpl in Hn. rewrite str_app_cons. cbn [chunksb] in *.
  destruct inq.
  - destruct (Ascii.eqb c Py.quote); [apply IH; [lia|done..]|].
    destruct (Ascii.eqb c Py.backslash); [|apply IH; [lia|done..]].
    destruct a as [|d a]; [done|]. rewrite str_app_cons. simpl in Hn.
    apply andb_true_iff in Ha as [-> Ha]. apply IH; [lia|done..].
  - destruct (Ascii.eqb c Py.quote); [apply IH; [lia|done..]|].
    apply andb_true_iff in Ha as [-> Ha]. apply IH; [lia|done..].
Qed.

Lemma chunksb_escaped : ∀ n b,
  String.length b ≤ n → escapedb b = true →
  chunksb true (b +:+ String Py.quote "") = true.
Proof.
  induction n as [|n IH]; intros b Hn Hb.
  { by destruct b; [|simpl in Hn; lia]. }
  destruct b as [|c b]; [done|].
  simpl in Hn. rewrite str_app_cons. cbn [chunksb escapedb] in *.
  destruct (Ascii.eqb c Py.quote); [done|].
  destruct (Ascii.eqb c Py.backslash); [|apply IH; [lia|done]].
  destruct b as [|d b]; [done|]. rewrite str_app_cons. simpl in Hn.
  apply andb_true_iff in Hb as [-> Hb]. apply IH; [lia|done].
Qed.

(** A quoted span with a well-escaped inside is a chunk sequence. *)
Lemma chunksb_quoted b : escapedb b = true → chunksb false (quoted b) = true.
Proof. intros Hb. by apply (chunksb_escaped _ b (le_n _)). Qed.

Lemma wf_field_spec n v :
  wf_field n v = true ↔
  chunksb false n = true ∧ Py.mem "="%char n = false ∧
  chunksb false v = true ∧ Py.mem "="%char v = false ∧
  Py.startswith "<" v = false.
Proof.
  unfold wf_field, no_eq.
  rewrite !andb_true_iff, !negb_true_iff. tauto.
Qed.

Lemma field_chunks n v :
  wf_field n v = true → chunksb false (render_field (n, v)) = true.
Proof.
  intros (Hn & _ & Hv & _)%wf_field_spec. unfold render_field. simpl.
  by apply (chunksb_app _ n false _ (le_n _)).
Qed.

Lemma field_nonempty n v : ∃ c t, render_field (n, v) = String c t.
Proof. unfold render_field. destruct n; simpl; eauto. Qed.

Lemma split_field n v :
  wf_field n v = true → Py.split "=" (render_field (n, v)) = [n; v].
Proof.
  intros (_ & Hn & _ & Hv & _)%wf_field_spec.
  by apply split_pair.
Qed.

Lemma wf_pieces_boundary ps :
  wf_pieces ps = true →
  match ps with Attr _ _ :: _ => False | _ => True end →
  at_boundary (render ps) = true.
Proof.
  destruct ps as [|[c|n v] ps]; simpl; [done| |done].
  by intros [? _]%andb_true_iff.
Qed.

Lemma wf_pieces_attr n v ps :
  wf_pieces (Attr n v :: ps) = true →
  wf_field n v = true ∧ wf_pieces ps = true ∧ at_boundary (render ps) = true.
Proof.
  simpl. intros [[Hf Hnext]%andb_true_iff Hps]%andb_true_iff.
  split_and!; [done..|].
  apply wf_pieces_boundary; [done|]. by destruct ps as [|[] ?].
Qed.

(** The tokens of a well-formed text are its fields, one token each. *)
Lemma findall_render ps :
  wf_pieces ps = true →
  Re.findall Re.TOKEN (render ps) = render_field <$> fields_of ps.
Proof.
  induction ps as [|[c|n v] ps IH]; intros Hwf.
  - by apply findall_empty.
  - simpl in Hwf. apply andb_true_iff in Hwf as [Hc Hps].
    simpl. rewrite findall_skip; [by apply IH|].
    by apply token_boundary.
  - apply wf_pieces_attr in Hwf as (Hf & Hps & Hb).
    cbn [render fields_of fmap list_fmap].
    pose proof (field_chunks _ _ Hf) as Hch.
    destruct (field_nonempty n v) as (c & t & Et).
    rewrite Et in *.
    rewrite findall_match; [by rewrite IH|].
    by apply token_match.
Qed.

Lemma wf_pieces_fields ps :
  wf_pieces ps = true → Forall (fun f => wf_field f.1 f.2 = true) (fields_of ps).
Proof.
  induction ps as [|[c|n v] ps IH]; intros Hwf; simpl.
  - constructor.
  - simpl in Hwf. apply andb_true_iff in Hwf as [_ ?]. by apply IH.
  - apply wf_pieces_attr in Hwf as (Hf & Hps & _). constructor; [done|by apply IH].
Qed.

(** The dict comprehension on the tokens of well-formed fields. *)
Lemma dict_of_fields fs : ∀ d,
  Forall (fun f => wf_field f.1 f.2 = true) fs →
  dict_of (Py.split "=" <$> (render_field <$> fs)) d
  = Ok (foldl (fun d f => <[f.1 := f.2]> d) d fs).
Proof.
  induction fs as [|[n v] fs IH]; intros d Hwf; [done|].
  apply Forall_cons in Hwf as [Hf Hfs].
  cbn [fmap list_fmap dict_of foldl]. rewrite split_field by done.
  simpl. by apply IH.
Qed.

(** ** The bracket split *)

Lemma contains_no_eq a b :
  Py.mem "="%char a = false →
  Py.contains "=<" (a +:+ b) = Py.contains "=<" b.
Proof.
  induction a as [|c a IH]; [done|].
  intros [Hc Ha]%mem_cons_false. rewrite str_app_cons.
  cbn [Py.contains]. rewrite startswith_head by done. by rewrite IH.
Qed.

Lemma contains_eq s :
  Py.contains "=<" (String "="%char s) = Py.startswith "<" s || Py.contains "=<" s.
Proof. reflexivity. Qed.

Lemma sep_not_eq c : is_sep c = true → c ≠ "="%char.
Proof. intros H ->. by vm_compute in H. Qed.

Lemma sep_not_lt c : is_sep c = true → c ≠ "<"%char.
Proof. intros H ->. by vm_compute in H. Qed.

Lemma startswith_lt_app v r :
  Py.startswith "<" v = false → Py.startswith "<" r = false →
  Py.startswith "<" (v +:+ r) = false.
Proof.
  destruct v as [|c v]; [by rewrite str_app_nil_l|]. intros H _.
  by rewrite str_app_cons, startswith_char in *.
Qed.

Lemma startswith_lt_boundary r :
  at_boundary r = true → Py.startswith "<" (r +:+ ">") = false.
Proof.
  destruct r as [|c r]; [done|]. intros Hc%sep_not_lt.
  rewrite str_app_cons. by apply startswith_head.
Qed.

Lemma render_no_bracket ps :
  wf_pieces ps = true → Py.contains "=<" (render ps +:+ ">") = false.
Proof.
  induction ps as [|[c|n v] ps IH]; intros Hwf.
  - reflexivity.
  - simpl in Hwf. apply andb_true_iff in Hwf as [Hc Hps].
    cbn [render]. rewrite str_app_cons. cbn [Py.contains].
    rewrite startswith_head by (by apply sep_not_eq). by apply IH.
  - apply wf_pieces_attr in Hwf as (Hf & Hps & Hb).
    apply wf_field_spec in Hf as (_ & Hn & _ & Hv & Hlt).
    cbn [render]. unfold render_field. simpl fst. simpl snd.
    rewrite !str_app_assoc. rewrite contains_no_eq by done.
    rewrite str_app_cons, str_app_nil_l, contains_eq.
    rewrite contains_no_eq by done. rewrite IH by done.
    rewrite orb_false_r.
    apply startswith_lt_app; [done|]. by apply startswith_lt_boundary.
Qed.

Lemma split_attr_line cat ps :
  Py.mem "="%char cat = false → wf_pieces ps = true →
  Py.split "=<" (attr_line cat ps) = [cat; render ps +:+ ">"].
Proof.
  intros Hcat Hwf. unfold attr_line.
  rewrite split_first by done.
  by rewrite split_none by (by apply render_no_bracket).
Qed.

(** A well-formed attribute line always parses, to the record of its
    fields. *)
Lemma multi_key_parse_wf cat ps fields :
  Py.mem "="%char cat = false → wf_pieces ps = true →
  multi_key_parse (attr_line cat ps) fields
  = Ok (new_rec (dict_pairs (fields_of ps)) fields).
Proof.
  intros Hcat Hwf. unfold multi_key_parse.
  rewrite split_attr_line by done. cbn [item lookup list_lookup mbind result_bind].
  rewrite drop_last_snoc, findall_render by done.
  rewrite dict_of_fields by (by apply wf_pieces_fields).
  reflexivity.
Qed.

End AttributeFacts.

(** * Records *)

Section RecordFacts.

Lemma new_rec_lookup_acc (d : gmap string string) (fields : list string) :
  ∀ (acc : gmap string cell) (f : string),
  foldl (fun rec field => <[field := d !! field]> rec) acc fields !! f
  = if decide (f ∈ fields) then Some (d !! f) else acc !! f.
Proof.
  induction fields as [|x fields IH]; intros acc f; cbn [foldl].
  - destruct (decide (f ∈ [])) as [Hin|_]; [by apply elem_of_nil in Hin|done].
  - rewrite IH.
    destruct (decide (f ∈ fields)) as [Hin|Hnin],
             (decide (f ∈ x :: fields)) as [Hin'|Hnin']; [done|..].
    + destruct Hnin'. by right.
    + apply elem_of_cons in Hin' as [->|?]; [|done].
      by rewrite lookup_insert_eq.
    + rewrite lookup_insert_ne; [done|]. intros ->. apply Hnin'. by left.
Qed.

Lemma new_rec_lookup (d : gmap string string) (fields : list string) (f : string) :
  new_rec d fields !! f = if decide (f ∈ fields) then Some (d !! f) else None.
Proof. unfold new_rec. by rewrite new_rec_lookup_acc, lookup_empty. Qed.

Lemma new_rec_dom (d : gmap string string) (fields : list string) :
  dom (new_rec d fields) = list_to_set (C:=gset string) fields.
Proof.
  apply set_eq. intros f.
  rewrite elem_of_dom, new_rec_lookup, elem_of_list_to_set.
  destruct (decide (f ∈ fields)); split; intros H; try done.
Qed.

(** Two dicts that agree on the expected fields give the same record. *)
Lemma new_rec_ext (d1 d2 : gmap string string) (fields : list string) :
  (∀ f, f ∈ fields → d1 !! f = d2 !! f) →
  new_rec d1 fields = new_rec d2 fields.
Proof.
  intros H. apply map_eq. intros f. rewrite !new_rec_lookup.
  destruct (decide (f ∈ fields)); [|done]. by rewrite H.
Qed.

(** The dict comprehension: a key holds the value of its last token. *)
Lemma dict_of_lookup keyvals : ∀ (d0 d : gmap string string) (f : string),
  dict_of keyvals d0 = Ok d →
  d !! f = match field_value f keyvals with
           | Some v => Some v
           | None => d0 !! f
           end.
Proof.
  unfold field_value.
  induction keyvals as [|kv keyvals IH]; intros d0 d f; simpl.
  - by intros [= ->].
  - destruct kv as [|k [|v kv]]; [done..|].
    cbn [item lookup list_lookup mbind result_bind]. intros Hd.
    rewrite (IH _ _ f Hd).
    destruct (decide (k = f)) as [->|Hne].
    + rewrite last_cons.
      destruct (last _); [done|]. by rewrite lookup_insert_eq.
    + destruct (last _); [done|]. by rewrite lookup_insert_ne.
Qed.

Lemma elem_of_values_of (f v : string) (fs : list (string * string)) : v ∈ values_of f fs ↔ (f, v) ∈ fs.
Proof.
  unfold values_of. rewrite list_elem_of_omap. split.
  - intros ([k w] & Hin & Hp). simpl in Hp.
    destruct (decide (k = f)); [|done]. by simplify_eq.
  - intros Hin. exists (f, v). split; [done|]. simpl. by rewrite decide_True.
Qed.

Lemma dict_pairs_lookup_acc fs : ∀ (d0 : gmap string string) f,
  foldl (fun d p => <[p.1 := p.2]> d) d0 fs !! f
  = match last (values_of f fs) with
    | Some v => Some v
    | None => d0 !! f
    end.
Proof.
  unfold values_of.
  induction fs as [|[k v] fs IH]; intros d0 f; simpl; [done|].
  rewrite IH. destruct (decide (k = f)) as [->|Hne].
  - rewrite last_cons. destruct (last _); [done|]. by rewrite lookup_insert_eq.
  - destruct (last _); [done|]. by rewrite lookup_insert_ne.
Qed.

Lemma dict_pairs_lookup (fs : list (string * string)) (f : string) :
  dict_pairs fs !! f = last (values_of f fs).
Proof.
  unfold dict_pairs. rewrite dict_pairs_lookup_acc, lookup_empty.
  by destruct (last _).
Qed.

Lemma dict_pairs_Some (fs : list (string * string)) (f v : string) :
  dict_pairs fs !! f = Some v → (f, v) ∈ fs.
Proof.
  rewrite dict_pairs_lookup. intros H%last_Some_elem_of.
  by apply elem_of_values_of.
Qed.

Lemma dict_pairs_unique (fs : list (string * string)) (f v : string) :
  (f, v) ∈ fs → (∀ w, (f, w) ∈ fs → w = v) → dict_pairs fs !! f = Some v.
Proof.
  intros Hin Huniq. rewrite dict_pairs_lookup.
  destruct (last (values_of f fs)) as [w|] eqn:E.
  - apply last_Some_elem_of, elem_of_values_of in E. by rewrite (Huniq w E).
  - apply last_None in E. apply elem_of_values_of in Hin.
    rewrite E in Hin. by apply elem_of_nil in Hin.
Qed.

Lemma dict_pairs_None (fs : list (string * string)) (f : string) :
  (∀ w, (f, w) ∉ fs) → dict_pairs fs !! f = None.
Proof.
  intros Hnin. rewrite dict_pairs_lookup.
  destruct (last (values_of f fs)) as [w|] eqn:E; [|done].
  apply last_Some_elem_of, elem_of_values_of in E. by destruct (Hnin w).
Qed.

Lemma elem_of_present (rec : gmap string cell) (f v : string) :
  (f, v) ∈ present rec ↔ rec !! f = Some (Some v).
Proof.
  unfold present. rewrite list_elem_of_omap. split.
  - intros ([k c] & Hin%elem_of_map_to_list & Hp). simpl in Hp.
    destruct c as [w|]; [|done]. by simplify_eq/=.
  - intros H. exists (f, Some v). split; [by apply elem_of_map_to_list|done].
Qed.

(** ** Serialized fields *)

Lemma serialize_fields fs : fields_of (serialize fs) = fs.
Proof.
  induction fs as [|[n v] [|g fs] IH]; [done..|].
  change (serialize ((n, v) :: g :: fs))
    with (Attr n v :: Gap ","%char :: serialize (g :: fs)).
  cbn [fields_of]. by rewrite IH.
Qed.

Lemma serialize_wf fs :
  Forall (fun f => wf_field f.1 f.2 = true) fs → wf_pieces (serialize fs) = true.
Proof.
  induction fs as [|[n v] [|g fs] IH]; intros Hwf; [done| |].
  - apply Forall_cons in Hwf as [Hf _]. simpl in *. by rewrite Hf.
  - apply Forall_cons in Hwf as [Hf Hfs].
    change (serialize ((n, v) :: g :: fs))
      with (Attr n v :: Gap ","%char :: serialize (g :: fs)).
    cbn [wf_pieces]. simpl in Hf. rewrite Hf, (IH Hfs). done.
Qed.

End RecordFacts.

(** * Tables and sheets *)

Section TableFacts.


(** A dict with no key outside the columns adds no column. *)
Lemma new_columns_known (cols : list string) (rec : gmap string cell) :
  (∀ k, is_Some (rec !! k) → k ∈ cols) → new_columns cols rec = [].
Proof.
  intros Hk. unfold new_columns.
  destruct (filter _ _) as [|k l] eqn:E; [done|].
  assert (k ∈ filter (fun k => k ∉ cols) (elements (dom rec))) as Hin
    by (rewrite E; left).
  apply list_elem_of_filter in Hin as [Hnin Hin].
  apply elem_of_elements, elem_of_dom in Hin. by destruct Hnin; apply Hk.
Qed.

Lemma append_known df rec :
  (∀ k, is_Some (rec !! k) → k ∈ columns df) →
  append df rec
  = {| columns := columns df; rows := rows df ++ [row (columns df) rec] |}.
Proof.
  intros Hk. unfold append. rewrite (new_columns_known _ _ Hk).
  cbv zeta. rewrite List.app_nil_r. f_equal. f_equal.
  induction (rows df) as [|r rs IH]; [done|].
  cbn [fmap list_fmap]. simpl. rewrite List.app_nil_r. f_equal. apply IH.
Qed.

Lemma append_rows_length df rec :
  length (rows (append df rec)) = S (length (rows df)).
Proof.
  unfold append. simpl. rewrite length_app, length_fmap. simpl.
  apply Nat.add_1_r.
Qed.

(** The keys of a record are expected fields. *)
Lemma multi_key_parse_keys line fields rec (k : string) :
  multi_key_parse line fields = Ok rec → is_Some (rec !! k) → k ∈ fields.
Proof.
  unfold multi_key_parse.
  destruct (item _ 1) as [body|]; [|done]. cbn [mbind result_bind].
  destruct (dict_of _ ∅) as [d|]; [|done]. cbn [mbind result_bind].
  intros [= <-]. rewrite new_rec_lookup.
  destruct (decide (k ∈ fields)); [done|]. by intros [? ?].
Qed.

Lemma record_of_keys c line self rec (k : string) :
  columns (table c self) = header c →
  record_of c line (columns (table c self)) = Ok rec →
  is_Some (rec !! k) → k ∈ columns (table c self).
Proof.
  intros Hcols Hrec Hk.
  destruct c; simpl in Hrec; try done;
    try (by apply (multi_key_parse_keys _ _ _ _ Hrec)).
  destruct (Py.cut "=" line) as [name [value|]]; [|done].
  injection Hrec as <-. rewrite Hcols. unfold keypair_rec in Hk.
  destruct (decide (k = "Value")) as [->|]; [by right; left|].
  destruct (decide (k = "Name")) as [->|]; [by left|].
  rewrite !lookup_insert_ne, lookup_empty in Hk by done. by destruct Hk.
Qed.


End TableFacts.

(** * The tokenizer *)

Section Tokenizer.

Lemma fields_of_app ps1 ps2 :
  fields_of (ps1 ++ ps2) = fields_of ps1 ++ fields_of ps2.
Proof.
  induction ps1 as [|[c|n v] ps1 IH]; simpl; [done..|]. by rewrite IH.
Qed.

Lemma values_of_absent (f : string) (fs : list (string * string)) :
  f ∉ fs.*1 → values_of f fs = [].
Proof.
  unfold values_of. induction fs as [|[k v] fs IH]; [done|].
  intros Hnin. cbn [omap list_omap]. simpl.
  rewrite decide_False.
  - apply IH. intros Hin. apply Hnin. simpl. by right.
  - intros ->. apply Hnin. simpl. by left.
Qed.

Lemma dict_pairs_last (fs1 fs2 : list (string * string)) (f v : string) :
  f ∉ fs2.*1 → dict_pairs (fs1 ++ (f, v) :: fs2) !! f = Some v.
Proof.
  intros Hnin. rewrite dict_pairs_lookup. unfold values_of.
  rewrite omap_app. cbn [omap list_omap]. simpl. rewrite decide_True by done.
  fold (values_of f fs2). rewrite (values_of_absent _ _ Hnin).
  apply last_snoc.
Qed.

End Tokenizer.

(** C1: on an attribute line whose quoted value holds an [=], the record does
    not keep the whole quoted string.  The token pattern does take
    [Description=...] with its quoted value as one token, but the token is
    then split on every [=] and only the second piece is stored: for the
    description AF=AC/AN between quotes the stored value is the opening quote
    and AF. *)
Theorem quoted_equals_value_truncated :
  Re.findall Re.TOKEN ("ID=AF,Description=" +:+ quoted "AF=AC/AN")
    = ["ID=AF"; "Description=" +:+ quoted "AF=AC/AN"] ∧
  header_line ("INFO=<ID=AF,Description=" +:+ quoted "AF=AC/AN" +:+ ">") empty_tables
    = Ok (set_md_info
            {| columns := info_fields;
               rows := [[Some "AF"; None; None; Some (dq +:+ "AF"); None; None]] |}
            empty_tables).
Proof. split; vm_compute; reflexivity. Qed.

(** C2: a double-quoted value with a comma is kept as one token, but the
    record does not always keep it with its surrounding quotes: when the
    value also holds an [=], the token is split there and what is stored ends
    before it, without the closing quote. *)
Theorem quoted_comma_value_loses_closing_quote :
  Re.findall Re.TOKEN ("ID=DP,Description=" +:+ quoted "a, b=c")
    = ["ID=DP"; "Description=" +:+ quoted "a, b=c"] ∧
  header_line ("INFO=<ID=DP,Description=" +:+ quoted "a, b=c" +:+ ">") empty_tables
    = Ok (set_md_info
            {| columns := info_fields;
               rows := [[Some "DP"; None; None; Some (dq +:+ "a, b"); None; None]] |}
            empty_tables).
Proof. split; vm_compute; reflexivity. Qed.

(** X20: in a well-formed attribute text, whose values hold no [=], a field
    whose value is double quoted is one token, name and value together,
    whatever commas and escaped quotes stand between the quotes: the tokens
    are those of the fields before it, this one, and those of the fields
    after it.  The record keeps the value with its surrounding quotes. *)
Theorem quoted_value_one_token cat pre name body post fields :
  Py.mem "="%char cat = false →
  wf_pieces (pre ++ Attr name (quoted body) :: post) = true →
  Re.findall Re.TOKEN (render (pre ++ Attr name (quoted body) :: post))
    = (render_field <$> fields_of pre)
      ++ (name +:+ "=" +:+ quoted body) :: (render_field <$> fields_of post) ∧
  (name ∈ fields → name ∉ (fields_of post).*1 →
   ∃ rec,
     multi_key_parse (attr_line cat (pre ++ Attr name (quoted body) :: post)) fields
       = Ok rec ∧
     rec !! name = Some (Some (quoted body))).
Proof.
  intros Hcat Hwf. split.
  - rewrite findall_render by done.
    by rewrite fields_of_app, fmap_app.
  - intros Hin Hlast. eexists. split; [by apply multi_key_parse_wf|].
    rewrite new_rec_lookup, decide_True by done.
    rewrite fields_of_app. cbn [fields_of]. by rewrite dict_pairs_last.
Qed.

Lemma quoted_value_one_token_witness :
  Re.findall Re.TOKEN
    (render ([Attr "ID" "DP"; Gap ","%char]
             ++ Attr "Description" (quoted "a, b, c")
             :: [Gap ","%char; Attr "Source" (quoted escaped_body)]))
  = ["ID=DP"; "Description=" +:+ quoted "a, b, c";
     "Source=" +:+ quoted escaped_body] ∧
  ∃ rec,
    multi_key_parse
      (attr_line "INFO"
         ([Attr "ID" "DP"; Gap ","%char]
          ++ Attr "Description" (quoted "a, b, c")
          :: [Gap ","%char; Attr "Source" (quoted escaped_body)]))
      info_fields
    = Ok rec ∧
    rec !! "Description" = Some (Some (quoted "a, b, c")).
Proof.
  destruct (quoted_value_one_token "INFO" [Attr "ID" "DP"; Gap ","%char]
              "Description" "a, b, c"
              [Gap ","%char; Attr "Source" (quoted escaped_body)] info_fields)
    as [Htok Hrec]; [reflexivity..|].
  split; [exact Htok|]. apply Hrec.
  - unfold info_fields. do 3 right. left.
  - simpl. intros [?|Hnil]%elem_of_cons; [done|]. by apply elem_of_nil in Hnil.
Defined.

(** C6: an expected field that stands on the line is not always recorded
    with its value.  With an [=] in its quoted value, Description is recorded
    with the text before it alone; with [=<] in the quoted value the line is
    cut there, Description is recorded as the empty string and Source, which
    follows on the line, as absent. *)
Theorem present_field_not_recorded_with_its_value :
  header_line
    ("INFO=<ID=AF,Description=" +:+ quoted "AF=AC/AN" +:+ ",Source=x>")
    empty_tables
  = Ok (set_md_info
          {| columns := info_fields;
             rows := [[Some "AF"; None; None; Some (dq +:+ "AF"); Some "x"; None]] |}
          empty_tables) ∧
  header_line
    ("INFO=<ID=DP,Description=" +:+ quoted "a=<b" +:+ ",Source=x>")
    empty_tables
  = Ok (set_md_info
          {| columns := info_fields;
             rows := [[Some "DP"; None; None; Some ""; None; None]] |}
          empty_tables).
Proof. split; vm_compute; reflexivity. Qed.

(** C7: the round trip fails on a line whose quoted value holds an [=].  The
    record keeps the value up to the [=], with its opening quote alone;
    written back as [field=value] pairs, in either order, the text no longer
    parses: the part after the unclosed quote is a token without [=]. *)
Theorem reparse_of_cut_value_fails :
  match multi_key_parse
          ("INFO=<ID=AF,Description=" +:+ quoted "AF=AC/AN" +:+ ">") info_fields with
  | Ok rec => Some (present rec)
  | Err _ => None
  end
  = Some [("ID", "AF"); ("Description", dq +:+ "AF")] ∧
  attr_line "INFO" (serialize [("ID", "AF"); ("Description", dq +:+ "AF")])
  = "INFO=<ID=AF,Description=" +:+ dq +:+ "AF>" ∧
  multi_key_parse
    (attr_line "INFO" (serialize [("ID", "AF"); ("Description", dq +:+ "AF")]))
    info_fields
  = Err IndexError ∧
  multi_key_parse
    (attr_line "INFO" (serialize [("Description", dq +:+ "AF"); ("ID", "AF")]))
    info_fields
  = Err IndexError.
Proof. split_and!; vm_compute; reflexivity. Qed.

(** X21: the fields a well-formed attribute line, whose values hold no [=],
    gives to its record, written back as [field=value] pairs in any order
    and joined by commas, parse to the same record. *)
Theorem reparse_serialized_fields cat ps fields rec fs :
  Py.mem "="%char cat = false →
  wf_pieces ps = true →
  multi_key_parse (attr_line cat ps) fields = Ok rec →
  fs ≡ₚ present rec →
  multi_key_parse (attr_line cat (serialize fs)) fields = Ok rec.
Proof.
  intros Hcat Hwf Hrec Hperm.
  rewrite multi_key_parse_wf in Hrec by done. injection Hrec as <-.
  set (d := dict_pairs (fields_of ps)) in *.
  assert (∀ f v, (f, v) ∈ fs ↔ f ∈ fields ∧ d !! f = Some v) as Hmem.
  { intros f v. rewrite Hperm, elem_of_present, new_rec_lookup.
    destruct (decide (f ∈ fields)) as [Hin|Hnin].
    - split; [intros [= ->]; done|intros [_ ->]; done].
    - split; [done|]. by intros [? _]. }
  assert (Forall (fun f => wf_field f.1 f.2 = true) fs) as Hfs.
  { apply Forall_forall. intros [f v] [_ Hd%dict_pairs_Some]%Hmem.
    pose proof (wf_pieces_fields _ Hwf) as Hall.
    rewrite Forall_forall in Hall. by apply Hall. }
  rewrite multi_key_parse_wf by (done || by apply serialize_wf).
  rewrite serialize_fields. f_equal. apply new_rec_ext. intros f Hf.
  destruct (d !! f) as [v|] eqn:E.
  - apply dict_pairs_unique; [by apply Hmem|].
    intros w [_ Hw]%Hmem. congruence.
  - apply dict_pairs_None. intros w [_ Hw]%Hmem. congruence.
Qed.

Lemma reparse_serialized_fields_witness :
  multi_key_parse
    (attr_line "INFO" (serialize [("Description", quoted "a, b"); ("ID", "DP")]))
    info_fields
  = Ok (new_rec (dict_pairs [("Description", quoted "a, b"); ("Vendor", "x");
                             ("ID", "DP")]) info_fields).
Proof.
  apply (reparse_serialized_fields "INFO"
           [Gap " "%char; Attr "Description" (quoted "a, b"); Gap ","%char;
            Gap " "%char; Attr "Vendor" "x"; Gap ","%char; Attr "ID" "DP"]).
  - reflexivity.
  - reflexivity.
  - vm_compute. reflexivity.
  - vm_compute. apply perm_swap.
Defined.

(** * Header lines *)

Section HeaderFacts.

Lemma contains_eq' sep s :
  Py.contains sep s =
  Py.startswith sep s || match s with "" => false | String _ s' => Py.contains sep s' end.
Proof. by destruct s. Qed.

Lemma cut_None_eq sep s : ∀ a,
  Py.cut sep s = (a, None) → a = s ∧ Py.contains sep s = false.
Proof.
  induction s as [|c s IH]; intros a; rewrite cut_eq, contains_eq';
    destruct (Py.startswith sep _); try done.
  - by intros [= <-].
  - destruct (Py.cut sep s) as [a' r'] eqn:E. intros [= <- ->].
    destruct (IH _ eq_refl) as [-> ->]. done.
Qed.

Lemma startswith_drop sep : ∀ s,
  Py.startswith sep s = true → s = sep +:+ Py.drop (String.length sep) s.
Proof.
  unfold Py.startswith.
  induction sep as [|e sep IH]; intros [|c s]; simpl; try done.
  destruct (ascii_dec e c) as [->|]; [|done].
  intros H. rewrite str_app_cons. f_equal. by apply IH.
Qed.

Lemma cut_Some_eq sep s : ∀ a r,
  Py.cut sep s = (a, Some r) → s = a +:+ sep +:+ r.
Proof.
  induction s as [|c s IH]; intros a r; rewrite cut_eq;
    destruct (Py.startswith sep _) eqn:Hs.
  - intros [= <- <-]. by apply startswith_drop.
  - done.
  - intros [= <- <-]. by apply startswith_drop.
  - destruct (Py.cut sep s) as [a' r'] eqn:E. intros [= <- ->].
    rewrite str_app_cons. f_equal. by apply IH.
Qed.

Lemma cut_Some_mem e s : ∀ a r,
  Py.cut (String e "") s = (a, Some r) → Py.mem e a = false.
Proof.
  induction s as [|c s IH]; intros a r; rewrite cut_eq.
  - rewrite startswith_empty. done.
  - rewrite startswith_char.
    destruct (Ascii.eqb_spec e c) as [->|Hne]; [by intros [= <- <-]|].
    destruct (Py.cut _ s) as [a' r'] eqn:E. intros [= <- ->].
    apply mem_cons_false. split; [done|]. by eapply IH.
Qed.

(** Exactly two pieces: one separator, with none on either side. *)
Lemma split_two e s :
  length (Py.split (String e "") s) = 2 →
  ∃ a b, Py.cut (String e "") s = (a, Some b) ∧
         Py.split (String e "") s = [a; b] ∧
         s = a +:+ String e "" +:+ b ∧
         Py.mem e a = false ∧ Py.mem e b = false.
Proof.
  rewrite split_eq.
  destruct (Py.cut _ s) as [a [b|]] eqn:E; [|done].
  rewrite split_eq.
  destruct (Py.cut _ b) as [b' [r|]] eqn:E'.
  { rewrite split_eq. by destruct (Py.cut _ r) as [? [?|]]. }
  intros _. apply cut_None_eq in E' as [-> Hb].
  exists a, b. split_and!; [done..| | |].
  - by apply cut_Some_eq.
  - by eapply cut_Some_mem.
  - by rewrite <-contains_char.
Qed.

(** The chain of prefix tests is the ordered classification. *)
Lemma header_line_record line self :
  header_line line self = record_line line self.
Proof.
  unfold header_line, record_line, classify, prefixes.
  cbn [List.find fst snd].
  repeat (destruct (Py.startswith _ line); [reflexivity|]).
  destruct (Nat.eqb_spec (length (Py.split "=" line)) 2) as [H2|_]; [|done].
  destruct (split_two _ _ H2) as (a & b & Hcut & Hsplit & _).
  unfold parse_keypair, record_of. by rewrite Hsplit, Hcut.
Qed.

Lemma classify_unprefixed line :
  List.find (fun p => Py.startswith p.1 line) prefixes = None →
  classify line =
  if Nat.eqb (length (Py.split "=" line)) 2 then Some KEYPAIR else None.
Proof. unfold classify. by intros ->. Qed.

Lemma classify_prefixed line p :
  List.find (fun p => Py.startswith p.1 line) prefixes = Some p →
  classify line = Some p.2 ∧ p.2 ≠ KEYPAIR.
Proof.
  unfold classify. intros Hp. rewrite Hp. split; [done|].
  apply List.find_some in Hp as [Hin _].
  unfold prefixes in Hin. simpl in Hin.
  repeat (destruct Hin as [<-|Hin]; [done|]). done.
Qed.

Lemma multi_key_parse_no_bracket line fields :
  Py.contains "=<" line = false → multi_key_parse line fields = Err IndexError.
Proof. intros H. unfold multi_key_parse. by rewrite split_none. Qed.

End HeaderFacts.

(** C4: a stripped line is handled by the first of the prefixes INFO, FILTER,
    FORMAT, ALT, contig, SAMPLE, PEDIGREE, taken in this order and compared
    letter for letter, that it starts with: under PEDIGREE the line fails,
    under another prefix its attribute record, if it parses, becomes the next
    row of the table of that prefix and of no other table.  A line with none
    of the prefixes is a key pair exactly when splitting it on [=] gives two
    pieces: the line then is name, [=], value with no further [=], the dict
    of Name and Value is appended to the key-pair table, as the row of name
    and value when the table has its two columns, and no other table
    changes; otherwise the line is invalid. *)
Theorem classification_by_ordered_prefixes line self :
  match List.find (fun p => Py.startswith p.1 line) prefixes with
  | Some p =>
      if decide (p.2 = PEDIGREE) then
        header_line line self = Err NotImplementedError
      else
        match multi_key_parse line (columns (table p.2 self)) with
        | Ok rec =>
            ∃ self',
              header_line line self = Ok self' ∧
              table p.2 self' = append (table p.2 self) rec ∧
              ∀ c, c ≠ p.2 → table c self' = table c self
        | Err e => header_line line self = Err e
        end
  | None =>
      if Nat.eqb (length (Py.split "=" line)) 2 then
        ∃ name value self',
          line = name +:+ "=" +:+ value ∧
          Py.mem "="%char name = false ∧ Py.mem "="%char value = false ∧
          header_line line self = Ok self' ∧
          md_keypairs self'
          = append (md_keypairs self)
                   (<["Value" := Some value]> (<["Name" := Some name]> ∅)) ∧
          (columns (md_keypairs self) = ["Name"; "Value"] →
           md_keypairs self'
           = {| columns := ["Name"; "Value"];
                rows := rows (md_keypairs self) ++ [[Some name; Some value]] |}) ∧
          ∀ c, c ≠ KEYPAIR → table c self' = table c self
      else
        header_line line self
        = Err (ValueError ("Invalid header line: " +:+ line))
  end.
Proof.
  rewrite header_line_record. unfold record_line.
  destruct (List.find _ prefixes) as [p|] eqn:Hfind.
  - destruct (classify_prefixed _ _ Hfind) as [-> Hkey].
    destruct (decide (p.2 = PEDIGREE)) as [->|Hped]; [done|].
    assert (∀ fields, record_of p.2 line fields = multi_key_parse line fields)
      as -> by (by destruct p.2).
    destruct (multi_key_parse line _) as [rec|e]; [|done].
    cbn [mbind result_bind]. eexists. split_and!; [done| |].
    + by destruct p.2.
    + intros c Hc. destruct p.2; try done; by destruct c.
  - rewrite (classify_unprefixed _ Hfind).
    destruct (Nat.eqb_spec (length (Py.split "=" line)) 2) as [H2|_]; [|done].
    destruct (split_two _ _ H2) as (name & value & Hcut & _ & Hline & Hn & Hv).
    unfold record_of. rewrite Hcut. cbn [mbind result_bind].
    exists name, value. eexists. split_and!; [done..| |].
    + intros Hcols. cbn [set_table set_md_keypairs md_keypairs table].
      rewrite append_known.
      * rewrite Hcols. unfold row, keypair_rec. cbn [fmap list_fmap].
        rewrite lookup_insert_ne, lookup_insert_eq, lookup_insert_eq by done.
        done.
      * intros k Hk. rewrite Hcols. unfold keypair_rec in Hk.
        destruct (decide (k = "Value")) as [->|]; [by right; left|].
        destruct (decide (k = "Name")) as [->|]; [by left|].
        rewrite !lookup_insert_ne, lookup_empty in Hk by done. by destruct Hk.
    + intros c Hc. by destruct c.
Qed.

Lemma classification_by_ordered_prefixes_witness :
  ∃ name value self',
    "myKey=myValue" = name +:+ "=" +:+ value ∧
    Py.mem "="%char name = false ∧ Py.mem "="%char value = false ∧
    header_line "myKey=myValue" empty_tables = Ok self' ∧
    md_keypairs self'
    = append (md_keypairs empty_tables)
             (<["Value" := Some value]> (<["Name" := Some name]> ∅)) ∧
    (columns (md_keypairs empty_tables) = ["Name"; "Value"] →
     md_keypairs self'
     = {| columns := ["Name"; "Value"];
          rows := rows (md_keypairs empty_tables) ++ [[Some name; Some value]] |}) ∧
    ∀ c, c ≠ KEYPAIR → table c self' = table c empty_tables.
Proof.
  exact (classification_by_ordered_prefixes "myKey=myValue" empty_tables).
Defined.

(** C10: a stripped line that opens with one of the six attribute prefixes
    but holds no [=<] makes the parse fail with an index error, whatever else
    it holds; it is never taken for a key pair. *)
Theorem prefixed_line_without_bracket line self :
  attr_prefixed line = true →
  Py.contains "=<" line = false →
  header_line line self = Err IndexError ∧ classify line ≠ Some KEYPAIR.
Proof.
  intros Hpre Hno. split.
  - unfold header_line. unfold attr_prefixed in Hpre.
    rewrite !multi_key_parse_no_bracket by done.
    repeat (destruct (Py.startswith _ line); [reflexivity|]). done.
  - destruct (List.find (fun p => Py.startswith p.1 line) prefixes) as [p|] eqn:Hp.
    + destruct (classify_prefixed _ _ Hp) as [-> Hne]. congruence.
    + unfold attr_prefixed in Hpre. unfold prefixes in Hp.
      cbn [List.find fst] in Hp.
      repeat (destruct (Py.startswith _ line); [done|]). done.
Qed.

Lemma prefixed_line_without_bracket_witness :
  header_line "INFOLINE=value" empty_tables = Err IndexError ∧
  classify "INFOLINE=value" ≠ Some KEYPAIR.
Proof.
  apply (prefixed_line_without_bracket "INFOLINE=value" empty_tables);
    reflexivity.
Defined.

(** * The header loop *)

Section LoopFacts.

Lemma parse_lines_cons line lines self :
  parse_lines (line :: lines) self =
  if marked line
  then self' ← header_line (Py.strip "##" line) self; parse_lines lines self'
  else Ok self.
Proof. unfold marked. simpl. by destruct (String.eqb _ _). Qed.

(** Marked lines are all processed before what follows them. *)
Lemma parse_lines_app pre lines : ∀ self,
  forallb marked pre = true →
  parse_lines (pre ++ lines) self =
  self' ← parse_lines pre self; parse_lines lines self'.
Proof.
  induction pre as [|x pre IH]; intros self Hpre; [done|].
  simpl in Hpre. apply andb_true_iff in Hpre as [Hx Hpre].
  rewrite <-app_comm_cons, !parse_lines_cons, Hx.
  destruct (header_line _ self) as [self'|e]; [|done].
  cbn [mbind result_bind]. by apply IH.
Qed.

Lemma fatal_header_line line self :
  fatal line = true → ∃ e, header_line line self = Err e.
Proof.
  unfold fatal. rewrite header_line_record. unfold record_line.
  destruct (classify line) as [[]|]; try done; eauto.
Qed.

End LoopFacts.

(** C3: the loop over the header lines stops at the first line that does not
    begin with the marker: the tables are those of the lines before it, and
    nothing at or after it is read. *)
Theorem stops_at_first_unmarked_line pre line post self :
  marked line = false →
  parse_lines (pre ++ line :: post) self = parse_lines pre self.
Proof.
  intros Hline. revert self.
  induction pre as [|x pre IH]; intros self.
  - cbn [app]. by rewrite parse_lines_cons, Hline.
  - rewrite <-app_comm_cons, !parse_lines_cons.
    destruct (marked x); [|done].
    destruct (header_line _ self) as [self'|e]; [|done].
    cbn [mbind result_bind]. apply IH.
Qed.

Lemma stops_at_first_unmarked_line_witness :
  parse_lines (["##a=b"] ++ "#CHROM" :: ["##INFO=<ID=DP>"; "##c=d"]) empty_tables
  = parse_lines ["##a=b"] empty_tables.
Proof.
  apply (stops_at_first_unmarked_line ["##a=b"] "#CHROM"
           ["##INFO=<ID=DP>"; "##c=d"] empty_tables).
  reflexivity.
Defined.

(** C5: when the lines up to some line all begin with the marker and that
    line, stripped, has no category or is a PEDIGREE line, the conversion
    fails and the files are left as they were: nothing is written.  If the
    lines before it parse, the failure is the one raised at that line. *)
Theorem fatal_line_writes_nothing raw_header outpath files pre line post :
  Py.split (String Py.newline "") raw_header = pre ++ line :: post →
  forallb marked pre = true →
  marked line = true →
  fatal (Py.strip "##" line) = true →
  (∃ e, Vcf2Excel_init raw_header outpath files = (Err e, files)) ∧
  (∀ self, parse_lines pre empty_tables = Ok self →
           ∃ e, header_line (Py.strip "##" line) self = Err e ∧
                parse_headers raw_header empty_tables = Err e).
Proof.
  intros Hraw Hpre Hline Hfatal.
  assert (∀ self, parse_lines pre empty_tables = Ok self →
                  ∃ e, header_line (Py.strip "##" line) self = Err e ∧
                       parse_headers raw_header empty_tables = Err e) as Hat.
  { intros self Hself.
    destruct (fatal_header_line _ self Hfatal) as [e He].
    exists e. split; [done|].
    unfold parse_headers. rewrite Hraw, parse_lines_app, Hself by done.
    cbn [mbind result_bind]. by rewrite parse_lines_cons, Hline, He. }
  split; [|done].
  unfold Vcf2Excel_init.
  destruct (parse_lines pre empty_tables) as [self|e] eqn:Hself.
  - destruct (Hat self eq_refl) as (e & _ & ->). eauto.
  - unfold parse_headers. rewrite Hraw, parse_lines_app, Hself by done. eauto.
Qed.

Lemma fatal_line_writes_nothing_witness :
  ∃ e, Vcf2Excel_init
         ("##a=b" +:+ String Py.newline "##BOGUS stuff here"
                  +:+ String Py.newline "##c=d")
         "out.xlsx" ∅
       = (Err e, ∅).
Proof.
  apply (fatal_line_writes_nothing _ "out.xlsx" ∅
           ["##a=b"] "##BOGUS stuff here" ["##c=d"]); reflexivity.
Defined.

(** C9: the marker is not removed by itself.  [strip] takes every leading and
    every trailing number sign off the line, so a line with a third leading
    number sign is read as an INFO line, and a key pair whose value ends in a
    number sign loses it. *)
Theorem strip_removes_every_number_sign :
  Py.strip "##" "###INFO=<ID=DP>" = "INFO=<ID=DP>" ∧
  Py.strip "##" "##source=run#" = "source=run" ∧
  parse_lines ["##source=run#"] empty_tables
  = Ok (set_md_keypairs
          {| columns := ["Name"; "Value"];
             rows := [[Some "source"; Some "run"]] |}
          empty_tables) ∧
  header_line "source=run#" empty_tables
  = Ok (set_md_keypairs
          {| columns := ["Name"; "Value"];
             rows := [[Some "source"; Some "run#"]] |}
          empty_tables).
Proof. split_and!; vm_compute; reflexivity. Qed.

(** * The sheets *)

Section SheetFacts.

Lemma record_line_tables line self self' :
  record_line line self = Ok self' →
  ∃ c rec,
    classify line = Some c ∧
    record_of c line (columns (table c self)) = Ok rec ∧
    ∀ c', table c' self' =
          if decide (c' = c) then append (table c self) rec else table c' self.
Proof.
  unfold record_line. destruct (classify line) as [c|]; [|done].
  destruct (record_of c line _) as [rec|e] eqn:Hrec; [|done].
  cbn [mbind result_bind]. intros [= <-].
  exists c, rec. split_and!; [done..|].
  intros c'. destruct c; try done; by destruct c'.
Qed.

Lemma rows_for_unmarked c line lines :
  marked line = false → rows_for c (line :: lines) = [].
Proof. intros H. unfold rows_for. simpl. by rewrite H. Qed.

Lemma rows_for_marked c line lines :
  marked line = true →
  rows_for c (line :: lines) =
  match (if decide (classify (Py.strip "##" line) = Some c) then
           match record_of c (Py.strip "##" line) (header c) with
           | Ok rec => Some (row (header c) rec)
           | Err _ => None
           end
         else None) with
  | Some r => r :: rows_for c lines
  | None => rows_for c lines
  end.
Proof. intros H. unfold rows_for. cbn [header_block]. by rewrite H. Qed.

(** The loop keeps every column header and adds to each table the rows of
    its lines, in line order. *)
Lemma parse_lines_tables lines : ∀ self self',
  (∀ c, columns (table c self) = header c) →
  parse_lines lines self = Ok self' →
  ∀ c, columns (table c self') = header c ∧
       rows (table c self') = rows (table c self) ++ rows_for c lines.
Proof.
  induction lines as [|line lines IH]; intros self self' Hcols.
  - intros [= <-] c. split; [done|]. by rewrite List.app_nil_r.
  - rewrite parse_lines_cons. destruct (marked line) eqn:Hm.
    + destruct (header_line _ self) as [self1|e] eqn:Hline; [|done].
      cbn [mbind result_bind]. intros Hrest c.
      rewrite header_line_record in Hline.
      apply record_line_tables in Hline as (c0 & rec & Hc0 & Hrec & Htab).
      rewrite (append_known (table c0 self) rec) in Htab
        by (intros k; by apply (record_of_keys c0 (Py.strip "##" line) self)).
      assert (∀ c, columns (table c self1) = header c) as Hcols1.
      { intros c1. rewrite Htab. destruct (decide (c1 = c0)) as [->|]; [|done].
        simpl. apply Hcols. }
      destruct (IH self1 self' Hcols1 Hrest c) as [Hc Hr].
      split; [done|]. rewrite Hr, Htab, (rows_for_marked _ _ _ Hm), Hc0.
      destruct (decide (c = c0)) as [->|Hne].
      * rewrite decide_True by done. rewrite <-Hcols, Hrec.
        simpl. by rewrite <-List.app_assoc.
      * rewrite decide_False by congruence. done.
    + intros [= <-] c. split; [done|].
      by rewrite (rows_for_unmarked _ _ _ Hm), List.app_nil_r.
Qed.

Lemma parse_headers_tables raw_header self c :
  parse_headers raw_header empty_tables = Ok self →
  table c self =
  {| columns := header c;
     rows := rows_for c (Py.split (String Py.newline "") raw_header) |}.
Proof.
  intros H. unfold parse_headers in H.
  destruct (parse_lines_tables _ _ _ (fun c => eq_refl) H c) as [Hc Hr].
  destruct (table c self) as [cols rws]. simpl in *. subst.
  by destruct c.
Qed.

End SheetFacts.




(** * Further properties *)

Section SplitFacts.

Lemma cut_Some_iff sep s :
  (∃ a r, Py.cut sep s = (a, Some r)) ↔ Py.contains sep s = true.
Proof.
  destruct (Py.cut sep s) as [a [r|]] eqn:E; split.
  - intros _. destruct (Py.contains sep s) eqn:Hc; [done|].
    by rewrite (cut_none _ _ Hc) in E.
  - eauto.
  - by intros (? & ? & ?).
  - apply cut_None_eq in E as [_ ->]. done.
Qed.

Lemma split_pieces e p s : ∃ a l, Py.split (String e p) s = a :: l.
Proof. rewrite split_eq. destruct (Py.cut _ s) as [a [r|]]; eauto. Qed.

Lemma item1_split e p s :
  (∃ body, item (Py.split (String e p) s) 1 = Ok body) ↔
  Py.contains (String e p) s = true.
Proof.
  rewrite <-cut_Some_iff, split_eq.
  destruct (Py.cut _ s) as [a [r|]] eqn:E; split.
  - eauto.
  - intros _. destruct (split_pieces e p r) as (b & l & ->). by exists b.
  - by intros [? ?].
  - by intros (? & ? & ?).
Qed.

Lemma count_char_mem e s : count_char e s = 0 ↔ Py.mem e s = false.
Proof.
  induction s as [|c s IH]; [done|]. simpl.
  destruct (Ascii.eqb e c); simpl; [split; [lia|done]|done].
Qed.

Lemma split_length_acc e : ∀ n s,
  String.length s ≤ n →
  length (Py.split (String e "") s) = S (count_char e s).
Proof.
  induction n as [|n IH]; intros s Hn.
  { destruct s; [done|simpl in Hn; lia]. }
  rewrite split_eq. destruct (Py.cut _ s) as [a [r|]] eqn:E.
  - pose proof (cut_some_length _ _ _ _ _ E) as Hlen.
    pose proof (cut_Some_eq _ _ _ _ E) as ->.
    pose proof (cut_Some_mem _ _ _ _ E) as Ha.
    simpl. rewrite IH by lia. f_equal.
    clear -Ha. induction a as [|c a IHa].
    + rewrite str_app_nil_l, str_app_cons. simpl. by rewrite Ascii.eqb_refl.
    + apply mem_cons_false in Ha as [Hne Ha]. rewrite str_app_cons. simpl.
      apply Ascii.eqb_neq in Hne. rewrite Hne. simpl. by apply IHa.
  - apply cut_None_eq in E as [-> Hc]. rewrite contains_char in Hc.
    apply count_char_mem in Hc. by rewrite Hc.
Qed.

End SplitFacts.

(** X1: splitting on a one-character separator gives one piece more than the
    separator occurs; so the key-pair test, two pieces when splitting on [=],
    holds exactly for the lines with one [=]. *)
Theorem split_length e s :
  length (Py.split (String e "") s) = S (count_char e s) ∧
  (Nat.eqb (length (Py.split (String e "") s)) 2 = true ↔ count_char e s = 1).
Proof.
  rewrite (split_length_acc e (String.length s)) by done.
  split; [done|]. rewrite Nat.eqb_eq. lia.
Qed.

(** X2: lines without a newline, joined by newlines, are split back into the
    same lines, so the header loop runs over exactly these lines; for no line
    at all the text is empty and the loop stops at once. *)
Theorem parse_headers_joined_lines lines self :
  forallb (fun l => negb (Py.mem Py.newline l)) lines = true →
  (lines ≠ [] →
   Py.split (String Py.newline "") (String.concat (String Py.newline "") lines)
   = lines) ∧
  parse_headers (String.concat (String Py.newline "") lines) self
  = parse_lines lines self.
Proof.
  intros Hl.
  assert (lines ≠ [] →
          Py.split (String Py.newline "") (String.concat (String Py.newline "") lines)
          = lines) as Hsplit.
  { clear self. induction lines as [|x [|y lines] IH]; intros Hne; [done| |].
    - simpl in *. apply andb_true_iff in Hl as [Hx%negb_true_iff _].
      by rewrite split_none by (by rewrite contains_char).
    - cbn [forallb] in Hl. apply andb_true_iff in Hl as [Hx%negb_true_iff Hl].
      change (String.concat ?sep (x :: y :: lines))
        with (x +:+ sep +:+ String.concat sep (y :: lines)).
      rewrite split_first by done. f_equal. by apply IH. }
  split; [done|]. unfold parse_headers.
  destruct lines as [|x lines]; [done|]. by rewrite Hsplit.
Qed.

Lemma parse_headers_joined_lines_witness :
  parse_headers
    (String.concat (String Py.newline "") ["##a=b"; "##INFO=<ID=DP>"; "#CHROM"])
    empty_tables
  = parse_lines ["##a=b"; "##INFO=<ID=DP>"; "#CHROM"] empty_tables.
Proof.
  apply (parse_headers_joined_lines ["##a=b"; "##INFO=<ID=DP>"; "#CHROM"]
           empty_tables).
  reflexivity.
Defined.

Section StripFacts.

Lemma lstrip_clean chars s : head_in chars (Py.lstrip chars s) = false.
Proof.
  induction s as [|c s IH]; [done|]. simpl.
  destruct (Py.mem c chars) eqn:E; [done|]. simpl. by rewrite E.
Qed.

Lemma lstrip_id chars s : head_in chars s = false → Py.lstrip chars s = s.
Proof. destruct s as [|c s]; [done|]. simpl. by intros ->. Qed.

Lemma rstrip_clean chars s : last_in chars (Py.rstrip chars s) = false.
Proof.
  induction s as [|c s IH]; [done|]. simpl.
  destruct (Py.rstrip chars s) as [|d r] eqn:E.
  - destruct (Py.mem c chars) eqn:Hc; [done|]. simpl. by rewrite Hc.
  - done.
Qed.

Lemma rstrip_id chars s : last_in chars s = false → Py.rstrip chars s = s.
Proof.
  induction s as [|c s IH]; [done|]. simpl.
  destruct s as [|d s].
  - simpl. by intros ->.
  - intros H. rewrite IH by done. done.
Qed.

(** What [rstrip] returns is a prefix of its argument, so a clean head stays
    clean. *)
Lemma rstrip_head chars s :
  head_in chars s = false → head_in chars (Py.rstrip chars s) = false.
Proof.
  destruct s as [|c s]; [done|]. simpl. intros Hc.
  destruct (Py.rstrip chars s); [by rewrite Hc|done].
Qed.

End StripFacts.

(** X3: what [strip] returns neither begins nor ends with one of the
    characters to strip, and a text that already is so is returned
    unchanged.  Hence stripping a marked line takes off the marker alone
    exactly when what follows the marker neither begins nor ends with a
    number sign. *)
Theorem strip_marker_exact rest :
  head_in "##" (Py.strip "##" ("##" +:+ rest)) = false ∧
  last_in "##" (Py.strip "##" ("##" +:+ rest)) = false ∧
  (Py.strip "##" ("##" +:+ rest) = rest ↔
   head_in "##" rest = false ∧ last_in "##" rest = false).
Proof.
  assert (Py.strip "##" ("##" +:+ rest) = Py.strip "##" rest) as -> by done.
  unfold Py.strip. split_and!.
  - apply rstrip_head, lstrip_clean.
  - apply rstrip_clean.
  - split.
    + intros <-. split; [apply rstrip_head, lstrip_clean|apply rstrip_clean].
    + intros [Hh Hl]. by rewrite lstrip_id, rstrip_id.
Qed.

Section ParseErrorFacts.

Lemma split_two_pieces e s :
  Py.mem e s = true ↔ ∃ k v l, Py.split (String e "") s = k :: v :: l.
Proof.
  rewrite split_eq. destruct (Py.cut _ s) as [a [r|]] eqn:E; split.
  - intros _. destruct (split_pieces e "" r) as (v & l & ->). eauto.
  - intros _. rewrite <-contains_char. apply cut_Some_iff. eauto.
  - apply cut_None_eq in E as [_ Hc]. rewrite contains_char in Hc. congruence.
  - by intros (? & ? & ? & ?).
Qed.

(** The dict comprehension raises nothing but [IndexError], and raises it
    exactly when some token has no [=]. *)
Lemma dict_of_tokens toks : ∀ d,
  (forallb (Py.mem "="%char) toks = true →
   ∃ d', dict_of (Py.split "=" <$> toks) d = Ok d') ∧
  (forallb (Py.mem "="%char) toks = false →
   dict_of (Py.split "=" <$> toks) d = Err IndexError).
Proof.
  induction toks as [|t toks IH]; intros d; [split; [eauto|done]|].
  cbn [forallb fmap list_fmap dict_of].
  destruct (Py.mem "="%char t) eqn:Ht.
  - apply split_two_pieces in Ht as (k & v & l & ->).
    cbn [item lookup list_lookup mbind result_bind andb]. apply IH.
  - destruct (split_pieces "="%char "" t) as (a & l & Hs).
    assert (l = []) as ->.
    { destruct l as [|v l]; [done|].
      assert (Py.mem "="%char t = true) by (apply split_two_pieces; eauto).
      congruence. }
    rewrite Hs. by split.
Qed.

Lemma startswith2 e1 e2 x y s :
  Py.startswith (String e1 (String e2 "")) (String x (String y s))
  = Ascii.eqb e1 x && Ascii.eqb e2 y.
Proof.
  unfold Py.startswith. cbn [String.prefix].
  destruct (ascii_dec e1 x) as [->|H1].
  - rewrite Ascii.eqb_refl. destruct (ascii_dec e2 y) as [->|H2].
    + rewrite Ascii.eqb_refl. by destruct s.
    + apply Ascii.eqb_neq in H2. by rewrite H2.
  - apply Ascii.eqb_neq in H1. by rewrite H1.
Qed.

Lemma startswith2_short e1 e2 x :
  Py.startswith (String e1 (String e2 "")) (String x "") = false.
Proof. unfold Py.startswith. simpl. by destruct (ascii_dec e1 x). Qed.

(** The leftmost [=<] of a text that goes on with [=<] after a part without
    one is that one. *)
Lemma cut_bracket b c :
  Py.contains "=<" b = false →
  Py.cut "=<" (b +:+ "=<" +:+ c) = (b, Some c).
Proof.
  induction b as [|x b IH]; intros Hb.
  - by rewrite str_app_nil_l, cut_eq, startswith_app, drop_app_length.
  - rewrite contains_eq' in Hb. apply orb_false_iff in Hb as [Hx Hb].
    rewrite str_app_cons, cut_eq.
    assert (Py.startswith "=<" (String x (b +:+ "=<" +:+ c)) = false) as ->.
    { destruct b as [|y b].
      - rewrite str_app_nil_l. change ("=<" +:+ c) with (String "=" (String "<" c)).
        rewrite startswith2. by rewrite andb_false_r.
      - rewrite str_app_cons. rewrite startswith2 in *. done. }
    by rewrite IH.
Qed.

End ParseErrorFacts.

(** X4: [multi_key_parse] raises nothing but [IndexError].  It returns a
    record exactly when the line holds [=<] and every token of the text it
    takes between the brackets holds an [=]; the expected fields play no part
    in this. *)
Theorem multi_key_parse_succeeds_iff line fields :
  (∀ e, multi_key_parse line fields = Err e → e = IndexError) ∧
  ((∃ rec, multi_key_parse line fields = Ok rec) ↔
   Py.contains "=<" line = true ∧
   forallb (Py.mem "="%char)
     (Re.findall Re.TOKEN (Py.drop_last (nth 1 (Py.split "=<" line) "")))
   = true).
Proof.
  unfold multi_key_parse.
  destruct (Py.contains "=<" line) eqn:Hc.
  - apply item1_split in Hc as [body Hbody]. rewrite Hbody.
    assert (nth 1 (Py.split "=<" line) "" = body) as ->.
    { unfold item in Hbody.
      destruct (Py.split "=<" line) as [|a [|b l]]; simpl in *; congruence. }
    cbn [mbind result_bind].
    destruct (dict_of_tokens (Re.findall Re.TOKEN (Py.drop_last body)) ∅)
      as [Hok Herr].
    destruct (forallb _ _).
    + destruct (Hok eq_refl) as [d ->]. cbn [mbind result_bind].
      split; [done|]. split; eauto.
    + rewrite (Herr eq_refl). cbn [mbind result_bind].
      split; [by intros e [= <-]|]. split; [by intros [? ?]|by intros [_ ?]].
  - rewrite split_none by done. cbn [item lookup list_lookup mbind result_bind].
    split; [by intros e [= <-]|]. split; [by intros [? ?]|by intros [? _]].
Qed.

(** X5: only the text up to a second [=<] is read: what stands after it on
    the line, and the character before it, never reach the record. *)
Theorem second_bracket_cuts_the_line a b c fields :
  Py.mem "="%char a = false →
  Py.contains "=<" b = false →
  multi_key_parse (a +:+ "=<" +:+ b +:+ "=<" +:+ c) fields
  = multi_key_parse (a +:+ "=<" +:+ b) fields.
Proof.
  intros Ha Hb. unfold multi_key_parse.
  rewrite (split_first _ _ a (b +:+ "=<" +:+ c)) by done.
  rewrite (split_first _ _ a b) by done.
  rewrite (split_eq _ _ (b +:+ "=<" +:+ c)), cut_bracket by done.
  by rewrite (split_none _ b) by done.
Qed.

Lemma second_bracket_cuts_the_line_witness :
  multi_key_parse ("INFO" +:+ "=<" +:+ "ID=DP,Description=x" +:+ "=<" +:+ "y>")
                  info_fields
  = multi_key_parse ("INFO" +:+ "=<" +:+ "ID=DP,Description=x") info_fields.
Proof.
  apply (second_bracket_cuts_the_line "INFO" "ID=DP,Description=x" "y>");
    reflexivity.
Defined.

(** X6: the last character of the bracketed text is dropped unread, whether
    it is the closing bracket or not: two lines that differ in it alone give
    the same result. *)
Theorem last_character_is_dropped cat body x y fields :
  Py.mem "="%char cat = false →
  Py.contains "=<" (body +:+ String x "") = false →
  Py.contains "=<" (body +:+ String y "") = false →
  multi_key_parse (cat +:+ "=<" +:+ body +:+ String x "") fields
  = multi_key_parse (cat +:+ "=<" +:+ body +:+ String y "") fields.
Proof.
  intros Hcat Hx Hy. unfold multi_key_parse.
  rewrite (split_first _ _ cat (body +:+ String x "")) by done.
  rewrite (split_first _ _ cat (body +:+ String y "")) by done.
  rewrite (split_none _ (body +:+ String x "")) by done.
  rewrite (split_none _ (body +:+ String y "")) by done.
  cbn [item lookup list_lookup mbind result_bind].
  by rewrite !drop_last_snoc.
Qed.

Lemma last_character_is_dropped_witness :
  multi_key_parse ("INFO" +:+ "=<" +:+ "ID=D" +:+ String ">"%char "") info_fields
  = multi_key_parse ("INFO" +:+ "=<" +:+ "ID=D" +:+ String "P"%char "") info_fields.
Proof.
  apply (last_character_is_dropped "INFO" "ID=D" ">"%char "P"%char);
    reflexivity.
Defined.

Section ClassifyFacts.

(** Two prefixes of one text: one is a prefix of the other. *)
Lemma prefix_both : ∀ line p q,
  Py.startswith p line = true → Py.startswith q line = true →
  String.prefix p q = true ∨ String.prefix q p = true.
Proof.
  unfold Py.startswith.
  induction line as [|c line IH]; intros [|x p] [|y q]; simpl;
    try done; try (by left); try (by right).
  destruct (ascii_dec x c) as [->|]; [|done].
  destruct (ascii_dec y c) as [->|]; [|done].
  destruct (ascii_dec c c); [|done]. apply IH.
Qed.

Lemma startswith_excludes line p q :
  Py.startswith p line = true →
  String.prefix p q = false → String.prefix q p = false →
  Py.startswith q line = false.
Proof.
  intros Hp Hpq Hqp. destruct (Py.startswith q line) eqn:Hq; [|done].
  destruct (prefix_both _ _ _ Hp Hq); congruence.
Qed.

Lemma set_table_columns c rec self :
  (∀ c', columns (table c' self) = header c') →
  (∀ k, is_Some (rec !! k) → k ∈ columns (table c self)) →
  ∀ c', columns (table c' (set_table c (append (table c self) rec) self))
        = header c'.
Proof.
  intros Hcols Hk c'. rewrite (append_known _ _ Hk), <-(Hcols c').
  by destruct c, c'.
Qed.

Lemma record_line_total_rows line self self' :
  record_line line self = Ok self' → total_rows self' = S (total_rows self).
Proof.
  unfold record_line. destruct (classify line) as [c|]; [|done].
  destruct (record_of c line _) as [rec|e] eqn:Hrec; [|done].
  cbn [mbind result_bind]. intros [= <-].
  pose proof (append_rows_length (table c self) rec) as Hlen.
  unfold total_rows, categories.
  destruct c; try done;
    cbn [fmap list_fmap sum_list sum_list_with table set_table
         set_md_keypairs set_md_info set_md_filter set_md_format set_md_alt
         set_md_contig set_md_sample md_keypairs md_info md_filter md_format
         md_alt md_contig md_sample md_pedigree] in *;
    rewrite Hlen; unfold id; lia.
Qed.

Lemma parse_lines_total_rows lines : ∀ self self',
  parse_lines lines self = Ok self' →
  total_rows self' = total_rows self + length (header_block lines).
Proof.
  induction lines as [|line lines IH]; intros self self'.
  - intros [= <-]. simpl. lia.
  - rewrite parse_lines_cons. simpl. destruct (marked line).
    + destruct (header_line _ self) as [self1|e] eqn:Hline; [|done].
      cbn [mbind result_bind]. intros Hrest.
      rewrite header_line_record in Hline.
      apply record_line_total_rows in Hline.
      rewrite (IH _ _ Hrest), Hline. simpl. lia.
    + intros [= <-]. simpl. lia.
Qed.

Lemma parse_lines_succeeds lines : ∀ self,
  (∀ c, columns (table c self) = header c) →
  (∃ self', parse_lines lines self = Ok self') ↔
  forallb line_ok (header_block lines) = true.
Proof.
  induction lines as [|line lines IH]; intros self Hcols.
  - simpl. split; eauto.
  - rewrite parse_lines_cons. simpl. destruct (marked line); [|simpl; split; eauto].
    cbn [forallb]. rewrite header_line_record. unfold record_line, line_ok.
    destruct (classify (Py.strip "##" line)) as [c|].
    + rewrite Hcols. destruct (record_of c _ (header c)) as [rec|e] eqn:Hrec.
      * cbn [mbind result_bind andb]. apply IH.
        apply set_table_columns; [done|]. intros k Hk.
        rewrite <-(Hcols c) in Hrec.
        by apply (record_of_keys c (Py.strip "##" line) self rec).
      * cbn [mbind result_bind andb]. split; [by intros [? ?]|done].
    + cbn [mbind result_bind andb]. split; [by intros [? ?]|done].
Qed.

Lemma omap_none {A B} (f : A → option B) (l : list A) :
  (∀ x, f x = None) → omap f l = [].
Proof.
  intros Hf. induction l as [|x l IH]; [done|].
  cbn [omap list_omap]. by rewrite Hf.
Qed.

Lemma rows_for_pedigree lines : rows_for PEDIGREE lines = [].
Proof.
  unfold rows_for. apply omap_none. intros l. simpl. by destruct (decide _).
Qed.

Lemma rows_for_length c lines :
  Forall (fun r => length r = length (header c)) (rows_for c lines).
Proof.
  unfold rows_for. apply Forall_forall. intros r Hr.
  apply list_elem_of_omap in Hr as (l & _ & Hl). simpl in Hl.
  destruct (decide _); [|done].
  destruct (record_of _ _ _) as [rec|]; [|done].
  injection Hl as <-. unfold row. by rewrite length_fmap.
Qed.

Lemma classify_of_prefix line p :
  In p prefixes → Py.startswith p.1 line = true → classify line = Some p.2.
Proof.
  intros Hp Hs.
  pose proof (startswith_excludes line p.1) as Hex.
  unfold prefixes in Hp. simpl in Hp.
  unfold classify, prefixes. cbn [List.find fst snd].
  repeat (destruct Hp as [<-|Hp];
          [simpl in *;
           repeat (first [rewrite Hs | rewrite Hex by done]); done|]).
  done.
Qed.

End ClassifyFacts.

(** X7: the seven prefixes exclude one another, so the order of the tests
    does not matter: a line has the category of a prefix exactly when it
    starts with that prefix. *)
Theorem category_iff_prefix line p :
  In p prefixes →
  (classify line = Some p.2 ↔ Py.startswith p.1 line = true).
Proof.
  intros Hp. split.
  - unfold classify.
    destruct (List.find _ prefixes) as [p'|] eqn:Hfind.
    + apply List.find_some in Hfind as [Hp' Hs]. intros [= Heq].
      assert (p' = p) as ->; [|done].
      unfold prefixes in Hp, Hp'. simpl in Hp, Hp'.
      repeat (destruct Hp as [<-|Hp]; [repeat (destruct Hp' as [<-|Hp']; try done)|]).
      done.
    + unfold prefixes in Hp. simpl in Hp.
      destruct (Nat.eqb _ 2); [|done].
      repeat (destruct Hp as [<-|Hp]; [done|]). done.
  - by apply classify_of_prefix.
Qed.

Lemma category_iff_prefix_witness :
  classify "FORMAT=<ID=GT>" = Some FORMAT ↔
  Py.startswith "FORMAT" "FORMAT=<ID=GT>" = true.
Proof.
  apply (category_iff_prefix "FORMAT=<ID=GT>" ("FORMAT", FORMAT)).
  simpl. tauto.
Defined.

(** X8: a stripped line with none of the prefixes and with no [=], or with
    more than one, raises [ValueError] with a message that names the line. *)
Theorem invalid_header_line_error line self :
  List.find (fun p => Py.startswith p.1 line) prefixes = None →
  count_char "="%char line ≠ 1 →
  header_line line self = Err (ValueError ("Invalid header line: " +:+ line)).
Proof.
  intros Hnone Hcount. rewrite header_line_record. unfold record_line.
  rewrite (classify_unprefixed _ Hnone).
  rewrite (split_length_acc _ _ line (le_n _)).
  destruct (Nat.eqb_spec (S (count_char "="%char line)) 2); [lia|done].
Qed.

Lemma invalid_header_line_error_witness :
  header_line "GATKCommandLine=<ID=HaplotypeCaller,Version=3.4>" empty_tables
  = Err (ValueError ("Invalid header line: "
                     +:+ "GATKCommandLine=<ID=HaplotypeCaller,Version=3.4>")).
Proof.
  apply (invalid_header_line_error
           "GATKCommandLine=<ID=HaplotypeCaller,Version=3.4>" empty_tables).
  - reflexivity.
  - vm_compute. lia.
Defined.

(** X9: a header line that is accepted adds one row to the table of its
    category, which is never the PEDIGREE table, and leaves every other table
    as it was. *)
Theorem header_line_adds_one_row line self self' :
  header_line line self = Ok self' →
  ∃ c rec,
    classify line = Some c ∧ c ≠ PEDIGREE ∧
    table c self' = append (table c self) rec ∧
    ∀ c', c' ≠ c → table c' self' = table c' self.
Proof.
  rewrite header_line_record. intros H.
  destruct (record_line_tables _ _ _ H) as (c & rec & Hc & Hrec & Htab).
  exists c, rec. split_and!; [done| | |].
  - intros ->. done.
  - by rewrite Htab, decide_True.
  - intros c' Hne. by rewrite Htab, decide_False.
Qed.

Lemma header_line_adds_one_row_witness :
  ∃ c rec,
    classify "ALT=<ID=DEL>" = Some c ∧ c ≠ PEDIGREE ∧
    table c (set_md_alt {| columns := ["ID"; "Description"];
                           rows := [[Some "DEL"; None]] |} empty_tables)
    = append (table c empty_tables) rec ∧
    ∀ c', c' ≠ c →
          table c' (set_md_alt {| columns := ["ID"; "Description"];
                                  rows := [[Some "DEL"; None]] |} empty_tables)
          = table c' empty_tables.
Proof.
  apply (header_line_adds_one_row "ALT=<ID=DEL>" empty_tables).
  vm_compute. reflexivity.
Defined.

(** X10: the header loop succeeds exactly when every line of the header
    block, stripped, has a category and a record that parses. *)
Theorem parse_succeeds_iff_lines_ok lines :
  (∃ self, parse_lines lines empty_tables = Ok self) ↔
  forallb line_ok (header_block lines) = true.
Proof. by apply parse_lines_succeeds. Qed.

(** X11: after a successful parse the tables hold, together, one row for each
    line of the header block. *)
Theorem one_row_per_header_line lines self :
  parse_lines lines empty_tables = Ok self →
  total_rows self = length (header_block lines).
Proof. intros H. by rewrite (parse_lines_total_rows _ _ _ H). Qed.

Lemma one_row_per_header_line_witness :
  total_rows (set_md_keypairs
                {| columns := ["Name"; "Value"]; rows := [[Some "a"; Some "b"]] |}
                (set_md_alt {| columns := ["ID"; "Description"];
                               rows := [[Some "DEL"; None]] |} empty_tables))
  = length (header_block ["##ALT=<ID=DEL>"; "##a=b"; "#CHROM"; "##c=d"]).
Proof.
  apply (one_row_per_header_line ["##ALT=<ID=DEL>"; "##a=b"; "#CHROM"; "##c=d"]).
  vm_compute. reflexivity.
Defined.

(** X12: after a successful parse every table has its fixed column header and
    every row has one cell for each column; the PEDIGREE table has no row. *)
Theorem tables_are_rectangular raw_header self c :
  parse_headers raw_header empty_tables = Ok self →
  columns (table c self) = header c ∧
  Forall (fun r => length r = length (header c)) (rows (table c self)) ∧
  rows (md_pedigree self) = [].
Proof.
  intros H. rewrite (parse_headers_tables _ _ c H).
  change (md_pedigree self) with (table PEDIGREE self).
  rewrite (parse_headers_tables _ _ PEDIGREE H). simpl.
  split_and!; [done|apply rows_for_length|apply rows_for_pedigree].
Qed.

Lemma tables_are_rectangular_witness :
  columns (table INFO (set_md_info
                         {| columns := info_fields;
                            rows := [[Some "DP"; Some "1"; None; None; None; None]] |}
                         empty_tables)) = header INFO.
Proof.
  apply (tables_are_rectangular sample_header _ INFO).
  vm_compute. reflexivity.
Defined.

Section OrderFacts.

Lemma dict_pairs_NoDup (fs : list (string * string)) (f v : string) :
  NoDup fs.*1 → dict_pairs fs !! f = Some v ↔ (f, v) ∈ fs.
Proof.
  intros Hnd. split; [apply dict_pairs_Some|].
  intros Hin. apply dict_pairs_unique; [done|].
  intros w Hw. revert Hnd Hin Hw. clear.
  induction fs as [|[k u] fs IH]; [by intros _ ?%elem_of_nil|].
  intros [Hk Hnd]%NoDup_cons [Hv|Hv]%elem_of_cons [Hw|Hw]%elem_of_cons.
  - congruence.
  - injection Hv as -> ->. destruct Hk.
    apply list_elem_of_fmap. by exists (k, w).
  - injection Hw as -> ->. destruct Hk.
    apply list_elem_of_fmap. by exists (k, v).
  - by apply IH.
Qed.

End OrderFacts.

(** X13: with no field name twice, neither the order of the fields of a
    well-formed attribute line nor the commas and whitespace between them
    change the record. *)
Theorem field_order_is_immaterial cat ps1 ps2 fields :
  Py.mem "="%char cat = false →
  wf_pieces ps1 = true → wf_pieces ps2 = true →
  NoDup (fields_of ps1).*1 →
  fields_of ps1 ≡ₚ fields_of ps2 →
  multi_key_parse (attr_line cat ps1) fields
  = multi_key_parse (attr_line cat ps2) fields.
Proof.
  intros Hcat Hwf1 Hwf2 Hnd Hperm.
  rewrite !multi_key_parse_wf by done. f_equal.
  apply new_rec_ext. intros f _. apply option_eq. intros v.
  assert (NoDup (fields_of ps2).*1) as Hnd2 by (by rewrite <-Hperm).
  rewrite !dict_pairs_NoDup by done. by rewrite Hperm.
Qed.

Lemma field_order_is_immaterial_witness :
  multi_key_parse
    (attr_line "FILTER" [Attr "ID" "q10"; Gap ","%char; Attr "Description" (quoted "a, b")])
    ["ID"; "Description"]
  = multi_key_parse
      (attr_line "FILTER" [Gap " "%char; Attr "Description" (quoted "a, b");
                           Gap ","%char; Gap " "%char; Attr "ID" "q10"; Gap " "%char])
      ["ID"; "Description"].
Proof.
  apply (field_order_is_immaterial "FILTER").
  - reflexivity.
  - reflexivity.
  - reflexivity.
  - refine (bool_decide_unpack _ _). vm_compute. exact I.
  - apply perm_swap.
Defined.

(** X14: a well-formed attribute line under one of the six attribute prefixes
    is always accepted: its record, which gives every expected field the
    value of the last field of that name on the line or the absent marker,
    becomes the next row of the table of the prefix. *)
Theorem well_formed_attribute_line_accepted p ps self :
  In p prefixes → p.2 ≠ PEDIGREE →
  wf_pieces ps = true →
  let rec := new_rec (dict_pairs (fields_of ps)) (columns (table p.2 self)) in
  header_line (attr_line p.1 ps) self
  = Ok (set_table p.2 (append (table p.2 self) rec) self) ∧
  ∀ f, f ∈ columns (table p.2 self) →
       rec !! f = Some (last (values_of f (fields_of ps))).
Proof.
  intros Hp Hped Hwf rec. split.
  - rewrite header_line_record. unfold record_line.
    rewrite (classify_of_prefix _ p Hp) by apply startswith_app.
    assert (Py.mem "="%char p.1 = false) as Hcat.
    { unfold prefixes in Hp. simpl in Hp.
      repeat (destruct Hp as [<-|Hp]; [done|]). done. }
    assert (record_of p.2 (attr_line p.1 ps) (columns (table p.2 self)) = Ok rec)
      as ->; [|done].
    unfold rec. rewrite <-(multi_key_parse_wf p.1 ps) by done.
    unfold prefixes in Hp. simpl in Hp.
    repeat (destruct Hp as [<-|Hp]; [done|]). done.
  - intros f Hf. unfold rec.
    by rewrite new_rec_lookup, decide_True, dict_pairs_lookup.
Qed.

Lemma well_formed_attribute_line_accepted_witness :
  header_line
    (attr_line "contig" [Attr "ID" "chr1"; Gap ","%char; Attr "length" "248956422"])
    empty_tables
  = Ok (set_table CONTIG
          (append (md_contig empty_tables)
             (new_rec (dict_pairs [("ID", "chr1"); ("length", "248956422")])
                      ["ID"; "URL"]))
          empty_tables).
Proof.
  apply (well_formed_attribute_line_accepted ("contig", CONTIG)
           [Attr "ID" "chr1"; Gap ","%char; Attr "length" "248956422"]
           empty_tables).
  - simpl. tauto.
  - discriminate.
  - reflexivity.
Defined.

(** X15: with fewer than two arguments after the script name the script
    prints the usage line and exits with status 1, whatever the reader would
    give, and the files stay as they were; with two or more it prints
    nothing and runs the conversion on the first two, ignoring the others.
    In no case is a file other than the output path changed. *)
Theorem main_checks_its_arguments raw_header_of argv w :
  (length argv < 3 →
   main raw_header_of argv w
   = (Exited 1, {| stdout := stdout w ++ [usage]; files := files w |})) ∧
  (∀ vcfpath outpath,
     argv !! 1 = Some vcfpath → argv !! 2 = Some outpath →
     stdout (main raw_header_of argv w).2 = stdout w ∧
     files (main raw_header_of argv w).2
     = (Vcf2Excel_init (raw_header_of vcfpath) outpath (files w)).2 ∧
     (main raw_header_of argv w).1 ≠ Exited 1) ∧
  (∀ path, argv !! 2 ≠ Some path →
           files (main raw_header_of argv w).2 !! path = files w !! path).
Proof.
  split_and!.
  - intros Hlen. destruct argv as [|a [|b [|c argv]]]; simpl in Hlen; try lia; done.
  - intros vcfpath outpath H1 H2. unfold main, item. rewrite H1, H2.
    cbn [mbind result_bind].
    destruct (Vcf2Excel_init _ _ _) as [[self|e] fs]; done.
  - intros path Hpath. unfold main, item.
    destruct (argv !! 1) as [vcfpath|]; [|done].
    destruct (argv !! 2) as [outpath|]; [|done].
    cbn [mbind result_bind]. unfold Vcf2Excel_init.
    destruct (parse_headers _ _) as [self|e]; [|done].
    simpl. unfold write_spreadsheet. apply lookup_insert_ne. congruence.
Qed.

Lemma main_checks_its_arguments_witness :
  main (fun _ => sample_header) ["Vcf2Excel.py"; "in.vcf"]
       {| stdout := []; files := ∅ |}
  = (Exited 1, {| stdout := [usage]; files := ∅ |}).
Proof.
  apply (main_checks_its_arguments (fun _ => sample_header)
           ["Vcf2Excel.py"; "in.vcf"] {| stdout := []; files := ∅ |}).
  simpl. lia.
Defined.

(** X16: of a token with more than one [=] the dict keeps, under the text
    before the first [=], only what stands between the first two. *)
Theorem token_value_ends_at_second_equals name value more d :
  Py.mem "="%char name = false →
  Py.mem "="%char value = false →
  dict_of [Py.split "=" (name +:+ "=" +:+ value +:+ "=" +:+ more)] d
  = Ok (<[name := value]> d).
Proof.
  intros Hn Hv.
  rewrite (split_first _ _ name (value +:+ "=" +:+ more)) by done.
  by rewrite (split_first _ _ value more) by done.
Qed.

Lemma token_value_ends_at_second_equals_witness :
  dict_of [Py.split "=" ("Description" +:+ "=" +:+ "AF" +:+ "=" +:+ "AC/AN")] ∅
  = Ok (<["Description" := "AF"]> ∅).
Proof.
  apply (token_value_ends_at_second_equals "Description" "AF" "AC/AN" ∅);
    reflexivity.
Defined.

(** X17: a header text whose first line does not begin with the marker, the
    empty text included, is no error: the conversion succeeds with all the
    tables empty and writes the eight sheets with their header rows only. *)
Theorem unmarked_first_line_gives_empty_sheets raw_header outpath files :
  marked (hd "" (Py.split (String Py.newline "") raw_header)) = false →
  Vcf2Excel_init raw_header outpath files
  = (Ok empty_tables,
     <[outpath := (fun p => labelled_sheet p.1 (header p.2) []) <$> sheets]> files).
Proof.
  intros Hm. unfold Vcf2Excel_init, parse_headers.
  destruct (split_pieces Py.newline "" raw_header) as (l & ls & Hs).
  rewrite Hs in *. simpl in Hm. by rewrite parse_lines_cons, Hm.
Qed.

Lemma unmarked_first_line_gives_empty_sheets_witness :
  Vcf2Excel_init "" "out.xlsx" ∅
  = (Ok empty_tables,
     <["out.xlsx" := (fun p => labelled_sheet p.1 (header p.2) []) <$> sheets]> ∅).
Proof.
  apply (unmarked_first_line_gives_empty_sheets "" "out.xlsx" ∅).
  reflexivity.
Defined.

(** X18: the loop handles marked lines one after the other: on marked lines
    followed by more lines it is the loop on the first part and then, from
    the tables reached, the loop on the rest; a failure in the first part is
    the failure of the whole. *)
Theorem header_loop_composes pre lines self :
  forallb marked pre = true →
  parse_lines (pre ++ lines) self
  = match parse_lines pre self with
    | Ok self' => parse_lines lines self'
    | Err e => Err e
    end.
Proof. intros Hpre. by rewrite parse_lines_app. Qed.

Lemma header_loop_composes_witness :
  parse_lines (["##a=b"; "##BOGUS"] ++ ["##c=d"]) empty_tables
  = match parse_lines ["##a=b"; "##BOGUS"] empty_tables with
    | Ok self' => parse_lines ["##c=d"] self'
    | Err e => Err e
    end.
Proof.
  apply (header_loop_composes ["##a=b"; "##BOGUS"] ["##c=d"] empty_tables).
  reflexivity.
Defined.

(** X19: a stripped line that starts with PEDIGREE raises
    [NotImplementedError], whatever follows the prefix and whatever the
    tables hold; a line such as PEDIGREE=x is not read as a key pair. *)
Theorem pedigree_line_not_implemented line self :
  Py.startswith "PEDIGREE" line = true →
  header_line line self = Err NotImplementedError.
Proof.
  intros Hs. rewrite header_line_record. unfold record_line.
  rewrite (classify_of_prefix line ("PEDIGREE", PEDIGREE)); [done| |done].
  simpl. tauto.
Qed.

Lemma pedigree_line_not_implemented_witness :
  header_line "PEDIGREE=x" empty_tables = Err NotImplementedError.
Proof.
  apply (pedigree_line_not_implemented "PEDIGREE=x" empty_tables).
  reflexivity.
Defined.
